(** * Reactmetadata: the metadata-attachment and license-generation pipeline

    A shallow embedding of [src/App.js] (type resolution, the two metadata
    embedders, the license renderer and the zip packaging of [downloadFile];
    the reducer, the hook [useFileHandler] and the edits of the profile
    form) together with the properties the specification states about them
    and further properties read off the code.

    Conventions of the embedding.
    - A JavaScript string is a [string]; each [ascii] stands for one code
      unit in the range 0..255.  Byte contents of files are [list byte].
    - A JavaScript object with optional properties is a record of [option]
      fields; [None] is a missing property ([undefined]).
    - Code that reads the clock, writes to the console or triggers a download
      lives in the monad [M] over an explicit [World]; a thrown exception is
      the [Throw] result, and [try ... catch] is [try_catch].
    - The browser and the third-party libraries (DOM text extraction,
      [Intl] date rendering, music-metadata-browser, pdf-lib) are the
      operations of the class [Host]; every definition and theorem of the
      pipeline is parametric in it. *)

From Stdlib Require Import String Ascii List NArith Bool Lia DecimalString.
From Stdlib Require Import Init.Byte.
From stdpp Require Import base option gmap strings.
Import ListNotations.

#[local] Arguments String.append !_ _ / : simpl nomatch.
#[local] Arguments Ascii.eqb !_ !_ /.

(** ** Strings as the script engine sees them *)

Module Str.

(** [c] occurs in [s]. *)
Fixpoint mem (c : ascii) (s : string) : bool :=
  match s with
  | "" => false
  | String x s' => Ascii.eqb x c || mem c s'
  end.

(** [s] begins with [t]. *)
Fixpoint starts_with (t s : string) : bool :=
  match t, s with
  | "", _ => true
  | String x t', String y s' => Ascii.eqb x y && starts_with t' s'
  | String _ _, "" => false
  end.

(** [t] occurs in [s] as a substring ([s.includes(t)]). *)
Fixpoint occurs (t s : string) : bool :=
  starts_with t s ||
  match s with
  | "" => false
  | String _ s' => occurs t s'
  end.

Definition is_digit (c : ascii) : bool :=
  (Ascii.leb "0" c && Ascii.leb c "9")%char.

Definition digit_val (c : ascii) : nat := nat_of_ascii c - 48.

Fixpoint all_digits (s : string) : bool :=
  match s with
  | "" => true
  | String c s' => is_digit c && all_digits s'
  end.

(** ECMAScript WhiteSpace and LineTerminator code units below 256:
    TAB, LF, VT, FF, CR, SP and NBSP. *)
Definition is_space (c : ascii) : bool :=
  let n := nat_of_ascii c in
  ((9 <=? n) && (n <=? 13)) || (n =? 32) || (n =? 160).

Fixpoint trimStart (s : string) : string :=
  match s with
  | "" => ""
  | String c s' => if is_space c then trimStart s' else s
  end.

(** [trimEnd] drops the longest all-blank suffix. *)
Fixpoint trimEnd (s : string) : string :=
  match s with
  | "" => ""
  | String c s' =>
      match trimEnd s' with
      | "" => if is_space c then "" else String c ""
      | t => String c t
      end
  end.

(** [String.prototype.trim]. *)
Definition trim (s : string) : string := trimEnd (trimStart s).

(** [s.split(sep)] for a one-character separator: never the empty list. *)
Fixpoint split (sep : ascii) (s : string) : list string :=
  match s with
  | "" => [""]
  | String c s' =>
      if Ascii.eqb c sep then "" :: split sep s'
      else match split sep s' with
           | [] => [String c ""]
           | l :: ls => String c l :: ls
           end
  end.

(** [arr.join(sep)]. *)
Fixpoint join (sep : string) (l : list string) : string :=
  match l with
  | [] => ""
  | [x] => x
  | x :: rest => x +:+ sep +:+ join sep rest
  end.

(** [arr.pop()] on the array [split] returned (which is never empty). *)
Definition pop (l : list string) : string := List.last l "".

(** Lower-casing of one code unit below 256: A-Z and the Latin-1 capitals
    (except the multiplication sign) move up by 32. *)
Definition lower_char (c : ascii) : ascii :=
  let n := nat_of_ascii c in
  if ((65 <=? n) && (n <=? 90)) ||
     ((192 <=? n) && (n <=? 222) && negb (n =? 215))
  then ascii_of_nat (n + 32) else c.

Fixpoint toLowerCase (s : string) : string :=
  match s with
  | "" => ""
  | String c s' => String (lower_char c) (toLowerCase s')
  end.

(** [n.toString()] for a non-negative integer. *)
Definition of_N (n : N) : string := NilZero.string_of_uint (N.to_uint n).

(** Truthiness of a string: only the empty string is falsy. *)
Definition truthy (s : string) : bool :=
  match s with "" => false | _ => true end.

End Str.

#[local] Arguments Str.is_digit !_ /.

(** [a || b] on a possibly missing string property: [undefined] and the empty
    string are falsy. *)
Definition or_else (a : option string) (b : string) : string :=
  match a with
  | Some s => if Str.truthy s then s else b
  | None => b
  end.

(** ** Regular expressions and [String.prototype.replace]

    The source uses regular-expression literals of two shapes: a literal text
    (such as [/{year}/g] or [/<p>/g]) and slash-separated capturing groups of
    decimal digits (such as [/(\d{1,2})\/(\d{4})/]).  A pattern is a sequence
    of nodes; matching is the backtracking matcher of the language, greedy on
    each quantified group. *)

Module Regex.

Inductive node :=
| Lit (c : ascii)                (* one literal character *)
| Digits (lo hi : nat).          (* the capturing group (\d{lo,hi}) *)

Definition pattern := list node.

(** The pattern matching the text [t] literally. *)
Fixpoint lit (t : string) : pattern :=
  match t with
  | "" => []
  | String c t' => Lit c :: lit t'
  end.

(** Exactly [k] digits at the head of [s]. *)
Fixpoint take_digits (k : nat) (s : string) : option (string * string) :=
  match k with
  | 0 => Some ("", s)
  | S k' =>
      match s with
      | String c s' =>
          if Str.is_digit c then
            match take_digits k' s' with
            | Some (d, r) => Some (String c d, r)
            | None => None
            end
          else None
      | "" => None
      end
  end.

(** Repetition counts in the order a greedy quantifier tries them:
    [lo + extra], ..., [lo]. *)
Fixpoint greedy_counts (lo extra : nat) : list nat :=
  match extra with
  | 0 => [lo]
  | S e => (lo + S e) :: greedy_counts lo e
  end.

Fixpoint first_some {A B} (f : A -> option B) (l : list A) : option B :=
  match l with
  | [] => None
  | x :: l' => match f x with Some y => Some y | None => first_some f l' end
  end.

(** The result of a successful match: captures, matched text, rest. *)
Definition hit : Type := list string * string * string.

(** Match [p] at the head of [s]. *)
Fixpoint match_here (p : pattern) (s : string) : option hit :=
  match p with
  | [] => Some ([], "", s)
  | Lit c :: p' =>
      match s with
      | String c' s' =>
          if Ascii.eqb c c' then
            match match_here p' s' with
            | Some (caps, m, rest) => Some (caps, String c' m, rest)
            | None => None
            end
          else None
      | "" => None
      end
  | Digits lo hi :: p' =>
      first_some
        (fun k =>
           match take_digits k s with
           | Some (d, r) =>
               match match_here p' r with
               | Some (caps, m, rest) => Some (d :: caps, d +:+ m, rest)
               | None => None
               end
           | None => None
           end)
        (greedy_counts lo (hi - lo))
  end.

(** GetSubstitution: expansion of the replacement text [tpl] for one match.
    [$$] is a dollar sign, [$&] the matched text, [$`] and [$'] the text
    before and after the match, [$n] and [$nn] the captures; a two-digit
    reference beyond the number of captures is read as a one-digit one, and
    a reference to no capture stays as written. *)
Fixpoint get_substitution (matched before after : string)
         (caps : list string) (tpl : string) : string :=
  let gs := get_substitution matched before after caps in
  let m := List.length caps in
  let cap n := List.nth (n - 1) caps "" in
  match tpl with
  | "" => ""
  | String c r =>
      if negb (Ascii.eqb c "$") then String c (gs r)
      else
        match r with
        | "" => String c ""
        | String d r' =>
            if Ascii.eqb d "$" then String "$" (gs r')
            else if Ascii.eqb d "&" then matched +:+ gs r'
            else if Ascii.eqb d "`" then before +:+ gs r'
            else if Ascii.eqb d "'" then after +:+ gs r'
            else if Str.is_digit d then
              let one :=
                let n := Str.digit_val d in
                if (1 <=? n) && (n <=? m) then cap n +:+ gs r'
                else String c (String d (gs r')) in
              match r' with
              | String e r'' =>
                  if Str.is_digit e then
                    let nn := 10 * Str.digit_val d + Str.digit_val e in
                    if nn <=? m then
                      if 1 <=? nn then cap nn +:+ gs r''
                      else String c (String d (String e (gs r'')))
                    else one
                  else one
              | "" => one
              end
            else String c (gs r)
        end
  end.

(** First position of [s] at which [p] matches; [before] collects the text
    already passed. *)
Fixpoint search (p : pattern) (before s : string)
  : option (string * hit) :=
  match match_here p s with
  | Some h => Some (before, h)
  | None =>
      match s with
      | "" => None
      | String c s' => search p (before +:+ String c "") s'
      end
  end.

(** [s.replace(/p/, tpl)]: the first match only. *)
Definition replace_first (p : pattern) (tpl s : string) : string :=
  match search p "" s with
  | None => s
  | Some (before, (caps, m, after)) =>
      before +:+ get_substitution m before after caps tpl +:+ after
  end.

(** The scan of a global replace.  [before] is the text of the subject
    already passed and [skip] the number of characters still covered by the
    last match. *)
Fixpoint replace_scan (p : pattern) (tpl before s : string) (skip : nat)
  : string :=
  match s with
  | "" =>
      match skip, match_here p "" with
      | 0, Some (caps, m, after) => get_substitution m before after caps tpl
      | _, _ => ""
      end
  | String c s' =>
      match skip with
      | S k => replace_scan p tpl (before +:+ String c "") s' k
      | 0 =>
          match match_here p s with
          | Some (caps, m, after) =>
              let sub := get_substitution m before after caps tpl in
              match String.length m with
              | 0 => sub +:+ String c
                       (replace_scan p tpl (before +:+ String c "") s' 0)
              | S k => sub +:+
                       replace_scan p tpl (before +:+ String c "") s' k
              end
          | None =>
              String c (replace_scan p tpl (before +:+ String c "") s' 0)
          end
      end
  end.

(** [s.replace(/p/g, tpl)]: every match, left to right, never rescanning
    what was substituted. *)
Definition replace_all (p : pattern) (tpl s : string) : string :=
  replace_scan p tpl "" s 0.

End Regex.

(** ** Data model *)

Definition bytes := list byte.

(** The line feed, written ['\n'] in the source. *)
Definition LF : ascii := "010"%char.
Definition newline : string := String LF "".

(** A [File] of the browser: its name, its media type and its content. *)
Module File.
Record t := { name : string; type : string; content : bytes }.
End File.

(** A [Blob]: a media type over either raw bytes or the encoding of a text. *)
Inductive BlobData :=
| Raw (b : bytes)
| Text (s : string).

Record Blob := { blob_data : BlobData; blob_type : string }.

(** [processedFile] is either the [File] object it was given or a new
    [Blob]. *)
Inductive Payload :=
| OfFile (f : File.t)
| OfBlob (b : Blob).

Definition payload_data (p : Payload) : BlobData :=
  match p with
  | OfFile f => Raw (File.content f)
  | OfBlob b => blob_data b
  end.

(** The metadata object.  Every property may be missing. *)
Record Metadata := {
  title : option string;
  authors : option (list string);
  institution : option string;
  website : option string;
  contact : option string;
  source : option string;
  dateFormat : option string;
  licenseTemplate : option string;
}.

(** The object literal [{}]. *)
Definition emptyMetadata : Metadata :=
  {| title := None; authors := None; institution := None; website := None;
     contact := None; source := None; dateFormat := None;
     licenseTemplate := None |}.

(** [{ ...a, ...b }]: the properties of [b] win over those of [a].  (A
    property that is present and holds [undefined] is not told apart from a
    missing one.) *)
Definition spread (a b : Metadata) : Metadata :=
  let pick {A} (f : Metadata -> option A) :=
    match f b with Some v => Some v | None => f a end in
  {| title := pick title; authors := pick authors;
     institution := pick institution; website := pick website;
     contact := pick contact; source := pick source;
     dateFormat := pick dateFormat;
     licenseTemplate := pick licenseTemplate |}.

(** An entry of the file list kept by the reducer ([handleFileUpload]). *)
Module Entry.
Record t := {
  name : string;
  size : nat;
  file : File.t;
  previewUrl : string;
  type : string;
}.
End Entry.

(** The embedders of the table: a closed set of handlers. *)
Inductive Handler := attachAudioMetadata_h | attachPDFMetadata_h.

Record TypeDescriptor := { mimeType : string; handler : option Handler }.

(** Tags of a parsed audio container ([IAudioMetadata.common]). *)
Record CommonTags := {
  tag_title : option string;
  tag_artist : option string;
  tag_album : option string;
}.

Record AudioMetadata := { common : CommonTags }.

(** A calendar date and time of day in the local time zone. *)
Record Date := {
  year : N; month : N; day : N;
  hours : N; minutes : N; seconds : N;
}.

Definition getFullYear (d : Date) : N := year d.

(** The [options] argument of [toLocaleDateString]. *)
Record DateOptions := {
  opt_year : string; opt_month : string; opt_day : string;
}.

(** [{ year: 'numeric', month: 'numeric', day: 'numeric' }]. *)
Definition numeric : DateOptions :=
  {| opt_year := "numeric"; opt_month := "numeric"; opt_day := "numeric" |}.

(** ** Exceptions and effects *)

Inductive Error :=
| TypeError (what : string)        (* raised by the language itself *)
| LibraryError (what : string).    (* raised by a library of the host *)

Inductive Result (A : Type) :=
| Ok (a : A)
| Throw (e : Error).
Arguments Ok {A} a.
Arguments Throw {A} e.

(** What JSZip holds under one entry name. *)
Inductive ZipData :=
| ZPayload (p : Payload)
| ZText (s : string).

(** The link the page clicks: the archive behind [href] and the suggested
    file name. *)
Record Download := { href : gmap string ZipData; download : string }.

(** The part of the browser the pipeline reads or changes: the clock (the
    [ticks]-th reading is [clock ticks]), the console and the downloads
    triggered so far, most recent first. *)
Record World := {
  clock : nat -> Date;
  ticks : nat;
  console : list (string * Error);
  downloads : list Download;
}.

Definition M (A : Type) : Type := World -> Result A * World.

Definition ret {A} (a : A) : M A := fun w => (Ok a, w).

Definition throw {A} (e : Error) : M A := fun w => (Throw e, w).

Definition bind {A B} (m : M A) (k : A -> M B) : M B :=
  fun w =>
    match m w with
    | (Ok a, w') => k a w'
    | (Throw e, w') => (Throw e, w')
    end.

Notation "'let*' x ':=' m 'in' k" := (bind m (fun x => k))
  (at level 10, x name, m at level 100, k at level 200).

Notation "m ';;' k" := (bind m (fun _ => k))
  (at level 100, k at level 200, right associativity).

(** [try { body } catch (error) { handler }]. *)
Definition try_catch {A} (body : M A) (handler : Error -> M A) : M A :=
  fun w =>
    match body w with
    | (Ok a, w') => (Ok a, w')
    | (Throw e, w') => handler e w'
    end.

(** A library call that either returns or throws, without other effect. *)
Definition lift {A} (r : Result A) : M A := fun w => (r, w).

(** [new Date()]. *)
Definition new_Date : M Date :=
  fun w =>
    (Ok (clock w (ticks w)),
     {| clock := clock w; ticks := S (ticks w);
        console := console w; downloads := downloads w |}).

(** [console.error(label, error)]. *)
Definition console_error (label : string) (e : Error) : M unit :=
  fun w =>
    (Ok tt,
     {| clock := clock w; ticks := ticks w;
        console := (label, e) :: console w; downloads := downloads w |}).

(** Appending the link to the page and clicking it. *)
Definition click (d : Download) : M unit :=
  fun w =>
    (Ok tt,
     {| clock := clock w; ticks := ticks w;
        console := console w; downloads := d :: downloads w |}).

(** ** The host: browser and libraries

    None of this is code of the repository.  [textContent html] is the text
    of a detached [div] whose [innerHTML] was set to [html];
    [toLocaleDateString] is the method of [Date]; [parseBuffer] is
    music-metadata-browser's, applied to what line 85 hands it: the
    [ArrayBuffer] that [file.arrayBuffer()] resolved to, and the type of the
    file; the [PDFDocument] operations are pdf-lib's. *)

Class Host := {
  textContent : string -> string;
  toLocaleDateString : Date -> option string -> option DateOptions -> string;
  parseBuffer : bytes -> string -> Result AudioMetadata;
  PDFDocument : Type;
  PDFDocument_load : bytes -> Result PDFDocument;
  setTitle : string -> PDFDocument -> PDFDocument;
  setAuthor : string -> PDFDocument -> PDFDocument;
  setSubject : string -> PDFDocument -> PDFDocument;
  PDFDocument_save : PDFDocument -> bytes;
}.

(** ** The program *)

Module config.

Definition defaultMetadata : Metadata :=
  {| title := None;
     authors := Some [];
     institution := Some "Your Institution Name";
     website := Some "Your Website URL";
     contact := Some "Your Contact Info";
     source := Some "Your Website Name";
     dateFormat := None;
     licenseTemplate := None |}.

(** A descriptor whose handler is the audio embedder. *)
Definition audio (mime : string) : TypeDescriptor :=
  {| mimeType := mime; handler := Some attachAudioMetadata_h |}.

(** A descriptor whose handler is [null]. *)
Definition unhandled (mime : string) : TypeDescriptor :=
  {| mimeType := mime; handler := None |}.

Definition supportedTypes : gmap string TypeDescriptor :=
  list_to_map
    [ ("wav", audio "audio/wav");
      ("mp3", audio "audio/mpeg");
      ("ogg", audio "audio/ogg");
      ("flac", audio "audio/flac");
      ("mp4", unhandled "video/mp4");
      ("webm", unhandled "video/webm");
      ("jpg", unhandled "image/jpeg");
      ("jpeg", unhandled "image/jpeg");
      ("png", unhandled "image/png");
      ("gif", unhandled "image/gif");
      ("webp", unhandled "image/webp");
      ("pdf", {| mimeType := "application/pdf";
                 handler := Some attachPDFMetadata_h |}) ].

(** The template the page starts with.  The copyright sign is the code
    unit 169. *)
Definition licenseTextTemplate : string :=
  "License Agreement

File: {filename}
Download Date: {downloadDate}

" +:+ String "169" "" +:+ " {year} {institution}

Authors:
{authorsList}

License:

This file is licensed under the {institution} Copyright License. Downloading the file constitutes agreement to the following terms:

* Personal Use Only: You may download and use this file for personal, non-commercial purposes.
* No Redistribution or Modification: You may not share, distribute, or modify this file without explicit written permission from {institution}.
* Copyright Protection: This file is protected by copyright law. Unauthorized use or reproduction is prohibited.

For More Information:

* Website: {website}
* Contact: {contact}
".

End config.

(** The placeholder tokens, in the order the renderer substitutes them. *)
Definition tokens : list string :=
  [ "filename"; "downloadDate"; "year"; "institution"; "website"; "contact";
    "authorsList" ].

(** The text of the placeholder called [n]. *)
Definition placeholder (n : string) : string := "{" +:+ n +:+ "}".

(** [a.join(', ') || b.join(', ')]. *)
Definition join_or (a b : list string) : string :=
  let s := Str.join ", " a in
  if Str.truthy s then s else Str.join ", " b.

(** [metadata.authors.join]: a [TypeError] when the property is missing. *)
Definition authors_of (metadata : Metadata) : Result (list string) :=
  match authors metadata with
  | Some l => Ok l
  | None => Throw (TypeError "metadata.authors is undefined")
  end.

Definition default_authors : list string :=
  match authors config.defaultMetadata with Some l => l | None => [] end.

Definition default_of (f : Metadata -> option string) : string :=
  match f config.defaultMetadata with Some s => s | None => "" end.

Section Pipeline.

Context `{Host}.

(** [attachAudioMetadata] (lines 82-97).  The three assignments change the
    parsed object only; the blob is built from the file itself, under the
    type of the file (which is already in the form [Blob] keeps types
    in). *)
Definition attachAudioMetadata (file : File.t) (metadata : Metadata)
  : M Blob :=
  try_catch
    (let arrayBuffer := File.content file in
     let* metadataResult := lift (parseBuffer arrayBuffer (File.type file)) in
     let common := common metadataResult in
     let common :=
       {| tag_title := Some (or_else (title metadata) "Default Title");
          tag_artist := tag_artist common;
          tag_album := tag_album common |} in
     let* own := lift (authors_of metadata) in
     let common :=
       {| tag_title := tag_title common;
          tag_artist := Some (join_or own default_authors);
          tag_album := tag_album common |} in
     let common :=
       {| tag_title := tag_title common;
          tag_artist := tag_artist common;
          tag_album :=
            Some (or_else (source metadata) (default_of source)) |} in
     let metadataResult := {| common := common |} in
     let updatedBlob :=
       {| blob_data := Raw (File.content file);
          blob_type := File.type file |} in
     ret updatedBlob)
    (fun error =>
       console_error "Error reading audio metadata:" error ;;
       throw error).

(** [attachPDFMetadata] (lines 99-109). *)
Definition attachPDFMetadata (file : File.t) (metadata : Metadata)
  : M Blob :=
  let arrayBuffer := File.content file in
  let* pdfDoc := lift (PDFDocument_load arrayBuffer) in
  let pdfDoc := setTitle (or_else (title metadata) "Default Title") pdfDoc in
  let* own := lift (authors_of metadata) in
  let pdfDoc := setAuthor (join_or own default_authors) pdfDoc in
  let pdfDoc :=
    setSubject (or_else (source metadata) (default_of source)) pdfDoc in
  let pdfBytes := PDFDocument_save pdfDoc in
  ret {| blob_data := Raw pdfBytes; blob_type := "application/pdf" |}.

Definition run_handler (h : Handler) : File.t -> Metadata -> M Blob :=
  match h with
  | attachAudioMetadata_h => attachAudioMetadata
  | attachPDFMetadata_h => attachPDFMetadata
  end.

(** [formatDate] (lines 135-147). *)
Definition formatDate (date : Date) (format : option string) : string :=
  let options := numeric in
  let case f :=
    match format with Some g => String.eqb g f | None => false end in
  if case "yyyy-m-d" then
    toLocaleDateString date (Some "en-CA") (Some options)
  else if case "m-yyyy-d" then
    Regex.replace_first
      [Regex.Digits 1 2; Regex.Lit "/"; Regex.Digits 4 4] "$2-$1"
      (toLocaleDateString date (Some "en-GB") (Some options))
  else if case "d-m-yyyy" then
    Regex.replace_first
      [Regex.Digits 1 2; Regex.Lit "/"; Regex.Digits 1 2; Regex.Lit "/";
       Regex.Digits 4 4] "$1-$2-$3"
      (toLocaleDateString date (Some "en-GB") (Some options))
  else toLocaleDateString date None None.

(** The value substituted for [{authorsList}] (lines 153-155). *)
Definition authorsList_of (metadata : Metadata) : string :=
  match authors metadata with
  | Some (a :: l) => Str.join ", " (a :: l)
  | _ => "N/A"
  end.

(** The template as plain text (lines 158-160): the paragraph tags are
    rewritten, the rest goes through the DOM.  For a detached element
    [innerText] is [textContent]. *)
Definition plainText (template : string) : string :=
  let html :=
    Regex.replace_all (Regex.lit "</p>") newline
      (Regex.replace_all (Regex.lit "<p>") "" template) in
  let innerText := textContent html in
  if Str.truthy (textContent html) then textContent html
  else if Str.truthy innerText then innerText else "".

(** One [.replace(/{n}/g, value)] of the chain. *)
Definition substitute (n value text : string) : string :=
  Regex.replace_all (Regex.lit (placeholder n)) value text.

(** The chain of replacements (lines 163-170). *)
Definition replaceVariables (filename downloadDate : string) (date : Date)
           (metadata : Metadata) (text : string) : string :=
  substitute "authorsList" (authorsList_of metadata)
    (substitute "contact"
       (or_else (contact metadata) (default_of contact))
       (substitute "website"
          (or_else (website metadata) (default_of website))
          (substitute "institution"
             (or_else (institution metadata) (default_of institution))
             (substitute "year" (Str.of_N (getFullYear date))
                (substitute "downloadDate" downloadDate
                   (substitute "filename" filename text)))))).

(** The last line of the renderer (line 173). *)
Definition trimLines (text : string) : string :=
  Str.join newline (map Str.trim (Str.split LF text)).

(** [generateLicenseContent] (lines 149-174). *)
Definition generateLicenseContent (filename : string) (metadata : Metadata)
  : M string :=
  let* date := new_Date in
  let downloadDate := formatDate date (dateFormat metadata) in
  let* template :=
    match licenseTemplate metadata with
    | Some t => ret t
    | None => throw (TypeError "metadata.licenseTemplate is undefined")
    end in
  let plainTextTemplate := plainText template in
  let plainTextTemplate :=
    replaceVariables filename downloadDate date metadata plainTextTemplate in
  ret (trimLines plainTextTemplate).

Record Attached := { processedFile : Payload; licenseBlob : Blob }.

Definition text_plain (s : string) : Blob :=
  {| blob_data := Text s; blob_type := "text/plain" |}.

(** The extension the table is asked for (line 113). *)
Definition fileExtension (name : string) : string :=
  Str.toLowerCase (Str.pop (Str.split "." name)).

(** The descriptor of a file name (line 114).  A name such as
    [constructor], found on the prototype of the table, gives an object
    without a [handler] property, which line 118 treats like no
    descriptor. *)
Definition resolve (name : string) : option TypeDescriptor :=
  match config.supportedTypes !! fileExtension name with
  | Some d => Some d
  | None => config.supportedTypes !! "default"
  end.

(** [handler && handler.handler]. *)
Definition embedder (name : string) : option Handler :=
  match resolve name with
  | Some d => handler d
  | None => None
  end.

(** [attachMetadataToDownload] (lines 111-133); [customMetadata] is [None]
    when the caller leaves the argument out. *)
Definition attachMetadataToDownload (file : File.t)
           (customMetadata : option Metadata) : M Attached :=
  let customMetadata :=
    match customMetadata with Some c => c | None => emptyMetadata end in
  let metadata := spread config.defaultMetadata customMetadata in
  try_catch
    (let* processedFile :=
       match embedder (File.name file) with
       | Some h =>
           let* b := run_handler h file metadata in ret (OfBlob b)
       | None => ret (OfFile file)
       end in
     let* licenseContent :=
       generateLicenseContent (File.name file) metadata in
     let licenseBlob := text_plain licenseContent in
     ret {| processedFile := processedFile; licenseBlob := licenseBlob |})
    (fun error =>
       console_error "Error attaching metadata:" error ;;
       let* licenseContent :=
         generateLicenseContent (File.name file) metadata in
       let licenseBlob := text_plain licenseContent in
       ret {| processedFile := OfFile file; licenseBlob := licenseBlob |}).

(** Modelled from the spec: JSZip is not part of the repository; the
    specification describes the archive as the pair of entries
    "{originalName: processedBytes, originalName + .license.txt:
    licenseText}".  [zip.file(name, data)] puts [data] under [name], in
    place of an entry of that name.  (The names the browser hands over are
    base names, so no folder entry comes with them.) *)
Definition zip_file (name : string) (data : ZipData)
           (zip : gmap string ZipData) : gmap string ZipData :=
  <[name := data]> zip.

(** [downloadFile] (lines 248-272). *)
Definition downloadFile (file : Entry.t) (metadata : Metadata) : M unit :=
  try_catch
    (let* attached :=
       attachMetadataToDownload (Entry.file file) (Some metadata) in
     let zip : gmap string ZipData := ∅ in
     let zip :=
       zip_file (Entry.name file) (ZPayload (processedFile attached)) zip in
     let* licenseContent :=
       generateLicenseContent (Entry.name file) metadata in
     let zip :=
       zip_file (Entry.name file +:+ ".license.txt") (ZText licenseContent)
                zip in
     let zipBlob := zip in
     click {| href := zipBlob;
              download := Entry.name file +:+ ".zip" |})
    (fun error => console_error "Error downloading file:" error).

End Pipeline.

(** ** A sample host

    One concrete browser, used to run the program on explicit inputs. *)

Module Sample.

(** Modelled from the spec: the DOM is not part of the repository; the
    specification describes the step as "removing all remaining markup to
    leave plain text".  Everything from a [<] to the next [>] is dropped. *)
Fixpoint strip_markup (inside : bool) (s : string) : string :=
  match s with
  | "" => ""
  | String c s' =>
      if inside then strip_markup (negb (Ascii.eqb c ">")) s'
      else if Ascii.eqb c "<" then strip_markup true s'
      else String c (strip_markup false s')
  end.

Definition two_digits (n : N) : string :=
  if (n <? 10)%N then "0" +:+ Str.of_N n else Str.of_N n.

(** The numeric dates of the CLDR locale data: [y-MM-dd] for en-CA,
    [dd/MM/y] for en-GB, and [M/d/y] (en-US) as the default locale. *)
Definition locale_date (d : Date) (locales : option string)
           (options : option DateOptions) : string :=
  let y := Str.of_N (year d) in
  match locales with
  | Some l =>
      if String.eqb l "en-CA" then
        y +:+ "-" +:+ two_digits (month d) +:+ "-" +:+ two_digits (day d)
      else if String.eqb l "en-GB" then
        two_digits (day d) +:+ "/" +:+ two_digits (month d) +:+ "/" +:+ y
      else Str.of_N (month d) +:+ "/" +:+ Str.of_N (day d) +:+ "/" +:+ y
  | None => Str.of_N (month d) +:+ "/" +:+ Str.of_N (day d) +:+ "/" +:+ y
  end.

Definition text_of_bytes (b : bytes) : string :=
  string_of_list_ascii (map ascii_of_byte b).

Definition bytes_of_text (s : string) : bytes :=
  map byte_of_ascii (list_ascii_of_string s).

(** A toy audio container, for naming the title a file holds: a title, a
    zero byte, the samples.  The program never gets to read it. *)
Fixpoint container_title (b : bytes) : option bytes :=
  match b with
  | [] => None
  | x00 :: _ => Some []
  | c :: b' =>
      match container_title b' with
      | Some t => Some (c :: t)
      | None => None
      end
  end.

Definition title_of (b : bytes) : option string :=
  option_map text_of_bytes (container_title b).

(** What [parseBuffer] answers to the call of line 85.  The library reads
    its input as a [Uint8Array] (it takes [subarray]s of it); line 85 hands
    it an [ArrayBuffer], which has no such method, so the call throws a
    [TypeError] whatever the bytes and the type are. *)
Definition not_a_view : Error :=
  TypeError "parseBuffer reads a Uint8Array and was handed an ArrayBuffer".

Definition parse_array_buffer (arrayBuffer : bytes) (mimeType : string)
  : Result AudioMetadata :=
  Throw not_a_view.

(** A toy document: the four bytes [%PDF], then the pages; the document
    properties are written after the pages on saving. *)
Record Document := {
  doc_pages : bytes;
  doc_title : string;
  doc_author : string;
  doc_subject : string;
}.

Definition load_document (b : bytes) : Result Document :=
  match b with
  | x25 :: x50 :: x44 :: x46 :: pages =>
      Ok {| doc_pages := pages; doc_title := ""; doc_author := "";
            doc_subject := "" |}
  | _ => Throw (LibraryError "no PDF header")
  end.

Definition save_document (d : Document) : bytes :=
  [x25; x50; x44; x46] ++ doc_pages d ++
  bytes_of_text ("/Title(" +:+ doc_title d +:+ ")/Author(" +:+
                 doc_author d +:+ ")/Subject(" +:+ doc_subject d +:+ ")").

#[export] Instance host : Host := {|
  textContent := strip_markup false;
  toLocaleDateString := locale_date;
  parseBuffer := parse_array_buffer;
  PDFDocument := Document;
  PDFDocument_load := load_document;
  setTitle := fun s d =>
    {| doc_pages := doc_pages d; doc_title := s;
       doc_author := doc_author d; doc_subject := doc_subject d |};
  setAuthor := fun s d =>
    {| doc_pages := doc_pages d; doc_title := doc_title d;
       doc_author := s; doc_subject := doc_subject d |};
  setSubject := fun s d =>
    {| doc_pages := doc_pages d; doc_title := doc_title d;
       doc_author := doc_author d; doc_subject := s |};
  PDFDocument_save := save_document;
|}.

(** 5 March 2024, noon. *)
Definition march5 : Date :=
  {| year := 2024; month := 3; day := 5;
     hours := 12; minutes := 0; seconds := 0 |}.

(** A browser whose clock stands at [march5]. *)
Definition world : World :=
  {| clock := fun _ => march5; ticks := 0; console := []; downloads := [] |}.

(** A file called [track.mp3] whose bytes are no audio. *)
Definition broken_mp3 : File.t :=
  {| File.name := "track.mp3"; File.type := "audio/mpeg";
     File.content := [x01; x02; x03] |}.

(** A file called [track.mp3] holding audio whose title is [Old]. *)
Definition tagged_mp3 : File.t :=
  {| File.name := "track.mp3"; File.type := "audio/mpeg";
     File.content := bytes_of_text "Old" ++ [x00; x01; x02] |}.

(** A document stored under the name [pdf], without any extension. *)
Definition pdf_without_extension : File.t :=
  {| File.name := "pdf"; File.type := "";
     File.content := [x25; x50; x44; x46; x01] |}.

(** The profile the page starts with ([useFileHandler]), over a given
    template. *)
Definition profile (template : string) : Metadata :=
  {| title := None; authors := Some [];
     institution := institution config.defaultMetadata;
     website := website config.defaultMetadata;
     contact := contact config.defaultMetadata;
     source := None;
     dateFormat := Some "yyyy-m-d";
     licenseTemplate := Some template |}.

(** The same profile with a list of authors. *)
Definition signed (own : list string) (template : string) : Metadata :=
  {| title := None; authors := Some own;
     institution := institution config.defaultMetadata;
     website := website config.defaultMetadata;
     contact := contact config.defaultMetadata;
     source := None;
     dateFormat := Some "yyyy-m-d";
     licenseTemplate := Some template |}.

(** A profile whose contact line points at the website placeholder. *)
Definition pointing : Metadata :=
  {| title := None; authors := Some [];
     institution := institution config.defaultMetadata;
     website := website config.defaultMetadata;
     contact := Some "see {website}";
     source := None;
     dateFormat := Some "yyyy-m-d";
     licenseTemplate := Some "Contact: {contact}" |}.

(** A profile whose contact line is the pattern for the matched text. *)
Definition echoing : Metadata :=
  {| title := None; authors := Some [];
     institution := institution config.defaultMetadata;
     website := website config.defaultMetadata;
     contact := Some "$&";
     source := None;
     dateFormat := Some "yyyy-m-d";
     licenseTemplate := Some "Contact: {contact}" |}.

(** A profile asking for a new title, artist and album. *)
Definition retitled : Metadata :=
  {| title := Some "New"; authors := Some ["Ada Lovelace"];
     institution := None; website := None; contact := None;
     source := Some "Acme Labs";
     dateFormat := None; licenseTemplate := None |}.



(** The entry the reducer keeps for an uploaded file. *)
Definition entry (f : File.t) : Entry.t :=
  {| Entry.name := File.name f; Entry.size := List.length (File.content f);
     Entry.file := f; Entry.previewUrl := "blob:preview";
     Entry.type := File.type f |}.

(** The profile of the archive scenario: one author, one institution. *)
Definition scenario : Metadata :=
  {| title := None; authors := Some ["Ada Lovelace"];
     institution := Some "Acme Labs";
     website := website config.defaultMetadata;
     contact := contact config.defaultMetadata;
     source := None;
     dateFormat := Some "yyyy-m-d";
     licenseTemplate := Some "<p>Authors:</p><p>{authorsList}</p>" |}.

(** The same author and institution over the template the page starts
    with. *)
Definition acme : Metadata :=
  {| title := None; authors := Some ["Ada Lovelace"];
     institution := Some "Acme Labs";
     website := website config.defaultMetadata;
     contact := contact config.defaultMetadata;
     source := None;
     dateFormat := Some "yyyy-m-d";
     licenseTemplate := Some config.licenseTextTemplate |}.

(** The download the scenario is expected to trigger. *)
Definition packaged : Download :=
  {| href :=
       <["track.mp3.license.txt" :=
           ZText ("Authors:" +:+ newline +:+ "Ada Lovelace" +:+ newline)]>
         (<["track.mp3" :=
              ZPayload (OfFile tagged_mp3)]> ∅);
     download := "track.mp3.zip" |}.

(** The same browser later on, with a line on its console. *)
Definition later : World :=
  {| clock := fun _ => march5; ticks := 7;
     console := [("Error downloading file:", LibraryError "earlier")];
     downloads := [] |}.

End Sample.

(** The fallback as the specification states it, for one call: if the
    embedder throws, the call returns the bytes of the input and a license
    without any placeholder of a field that has a default. *)
Definition fallback_as_stated `{Host} (file : File.t)
           (custom : option Metadata) (w : World) : Prop :=
  forall h e w1,
    embedder (File.name file) = Some h ->
    run_handler h file
      (spread config.defaultMetadata
         (match custom with Some c => c | None => emptyMetadata end)) w =
    (Throw e, w1) ->
    exists attached w' license,
      attachMetadataToDownload file custom w = (Ok attached, w') /\
      payload_data (processedFile attached) = Raw (File.content file) /\
      blob_data (licenseBlob attached) = Text license /\
      forall n, In n ["institution"; "website"; "contact"; "authorsList"] ->
                Str.occurs (placeholder n) license = false.

(** ** Templates as text and placeholders

    A template is well formed when it is a sequence of pieces of text
    without an opening brace and of placeholders [{n}] whose name [n] has no
    brace. *)

Module Template.

Inductive seg :=
| Txt (s : string)
| Hole (n : string).

Definition seg_text (x : seg) : string :=
  match x with
  | Txt s => s
  | Hole n => placeholder n
  end.

Fixpoint flatten (l : list seg) : string :=
  match l with
  | [] => ""
  | x :: l' => seg_text x +:+ flatten l'
  end.

Definition plain_name (n : string) : bool :=
  negb (Str.mem "{" n) && negb (Str.mem "}" n).

Definition wf_seg (x : seg) : bool :=
  match x with
  | Txt s => negb (Str.mem "{" s)
  | Hole n => plain_name n
  end.

Definition wf (l : list seg) : bool := forallb wf_seg l.

(** Filling the placeholders called [n] with [v]. *)
Definition fill (n v : string) (x : seg) : seg :=
  match x with
  | Hole n' => if String.eqb n' n then Txt v else x
  | Txt _ => x
  end.

Fixpoint assoc (n : string) (env : list (string * string)) : option string :=
  match env with
  | [] => None
  | (n', v) :: env' => if String.eqb n n' then Some v else assoc n env'
  end.

(** Filling every placeholder that [env] binds, in one pass; the others
    stay as they are. *)
Definition fill_all (env : list (string * string)) (x : seg) : seg :=
  match x with
  | Hole n => match assoc n env with Some v => Txt v | None => x end
  | Txt _ => x
  end.

(** The placeholder [{n}] is among the pieces. *)
Definition has_hole (n : string) (l : list seg) : bool :=
  existsb
    (fun x =>
       match x with
       | Hole n' => String.eqb n' n
       | Txt _ => false
       end) l.

End Template.

(** A value that substitutes as it is written: it has no opening brace, so it
    cannot open a placeholder, and no dollar sign, so it holds no
    replacement pattern. *)
Definition clean (v : string) : bool :=
  negb (Str.mem "{" v) && negb (Str.mem "$" v).

Section Values.

Context `{Host}.

(** The values of the seven placeholders, in the order of the chain. *)
Definition values (filename : string) (date : Date) (metadata : Metadata)
  : list (string * string) :=
  [ ("filename", filename);
    ("downloadDate", formatDate date (dateFormat metadata));
    ("year", Str.of_N (getFullYear date));
    ("institution", or_else (institution metadata) (default_of institution));
    ("website", or_else (website metadata) (default_of website));
    ("contact", or_else (contact metadata) (default_of contact));
    ("authorsList", authorsList_of metadata) ].

(** The values that come from the file, the host and the profile are
    clean (the year is a number and needs no check). *)
Definition clean_values (filename : string) (date : Date)
           (metadata : Metadata) : bool :=
  forallb clean
    [ filename;
      formatDate date (dateFormat metadata);
      or_else (institution metadata) (default_of institution);
      or_else (website metadata) (default_of website);
      or_else (contact metadata) (default_of contact);
      authorsList_of metadata ].

(** The text the chain has produced when it reaches [{authorsList}]. *)
Definition beforeAuthors (filename : string) (date : Date)
           (metadata : Metadata) (text : string) : string :=
  substitute "contact"
    (or_else (contact metadata) (default_of contact))
    (substitute "website"
       (or_else (website metadata) (default_of website))
       (substitute "institution"
          (or_else (institution metadata) (default_of institution))
          (substitute "year" (Str.of_N (getFullYear date))
             (substitute "downloadDate"
                (formatDate date (dateFormat metadata))
                (substitute "filename" filename text))))).

(** The tags a returned blob reads back as. *)
Definition read_back (b : Blob) : Result AudioMetadata :=
  match blob_data b with
  | Raw content => parseBuffer content (blob_type b)
  | Text _ => Throw (LibraryError "not a container")
  end.

(** A chain of replacements, one [.replace] per binding, first binding
    first. *)
Fixpoint substitute_chain (env : list (string * string)) (text : string)
  : string :=
  match env with
  | [] => text
  | (n, v) :: env' => substitute_chain env' (substitute n v text)
  end.

End Values.

(** Replacement as the specification words it: every occurrence of the
    text [t], left to right and without overlap, gives way to the text [v]
    taken literally.  [skip] counts the characters of the occurrence being
    replaced that are still ahead. *)
Fixpoint replace_literal_scan (t v s : string) (skip : nat) : string :=
  match s with
  | "" => ""
  | String c s' =>
      match skip with
      | S k => replace_literal_scan t v s' k
      | 0 =>
          if Str.starts_with t s
          then v +:+ replace_literal_scan t v s' (String.length t - 1)
          else String c (replace_literal_scan t v s' 0)
      end
  end.

Definition replace_literal (t v s : string) : string :=
  replace_literal_scan t v s 0.

(** The world after one reading of the clock. *)
Definition tick (w : World) : World :=
  {| clock := clock w; ticks := S (ticks w);
     console := console w; downloads := downloads w |}.

(** The world after one more line on the console. *)
Definition logged (label : string) (e : Error) (w : World) : World :=
  {| clock := clock w; ticks := ticks w;
     console := (label, e) :: console w; downloads := downloads w |}.

(** The date the next [new Date()] returns. *)
Definition now (w : World) : Date := clock w (ticks w).

(** A date written as day, month and year: one or two digits, one or two
    digits, four digits. *)
Definition day_month_year (d m y : string) : bool :=
  Str.all_digits d && Str.all_digits m && Str.all_digits y &&
  (1 <=? String.length d) && (String.length d <=? 2) &&
  (1 <=? String.length m) && (String.length m <=? 2) &&
  (String.length y =? 4).

(** A computation that triggers no download. *)
Definition keeps_downloads {A} (m : M A) : Prop :=
  forall w, downloads (snd (m w)) = downloads w.

(** ** The page: the reducer, the file list and the profile form *)

(** The state of the reducer (lines 56-61). *)
Record State := {
  files : list Entry.t;
  loading : bool;
  error : option string;
  theme : string;
}.

Definition initialState : State :=
  {| files := []; loading := false; error := None; theme := "light" |}.

(** An action: its [type] and, where the reducer reads it, its [payload].
    [Other] stands for every type the [switch] has no case for. *)
Inductive Action :=
| ADD_FILES (payload : list Entry.t)
| REMOVE_FILE (payload : string)
| CLEAR_FILES
| SET_LOADING (payload : bool)
| SET_ERROR (payload : option string)
| SET_THEME (payload : string)
| Other (type : string).

(** [reducer] (lines 63-80). *)
Definition reducer (state : State) (action : Action) : State :=
  match action with
  | ADD_FILES payload =>
      {| files := files state ++ payload; loading := loading state;
         error := error state; theme := theme state |}
  | REMOVE_FILE payload =>
      {| files :=
           List.filter
             (fun file => negb (String.eqb (Entry.name file) payload))
             (files state);
         loading := loading state; error := error state;
         theme := theme state |}
  | CLEAR_FILES =>
      {| files := []; loading := loading state; error := error state;
         theme := theme state |}
  | SET_LOADING payload =>
      {| files := files state; loading := payload; error := error state;
         theme := theme state |}
  | SET_ERROR payload =>
      {| files := files state; loading := loading state; error := payload;
         theme := theme state |}
  | SET_THEME payload =>
      {| files := files state; loading := loading state;
         error := error state; theme := payload |}
  | Other _ => state
  end.

(** What the hook [useFileHandler] acts on: the state of the reducer, the
    object URLs of the browser ([minted] counts those created so far,
    [objectURLs] holds those not revoked) and the class of the document
    body ([None] as long as the hook has not set it).  The user's events
    are handled one at a time, each on the page the last one left. *)
Record Page := {
  state : State;
  minted : nat;
  objectURLs : gset string;
  className : option string;
}.

Definition initialPage : Page :=
  {| state := initialState; minted := 0; objectURLs := ∅;
     className := None |}.

(** The events of the hook: the four functions it returns. *)
Inductive Event :=
| Upload (uploadedFiles : list File.t)
| Remove (name : string)
| Clear
| Theme (theme : string).

Section Hook.

(** The text of the [n]-th object URL the browser creates. *)
Variable blob_url : nat -> string.

(** [URL.createObjectURL(file)]. *)
Definition createObjectURL (p : Page) : string * Page :=
  let url := blob_url (minted p) in
  (url,
   {| state := state p; minted := S (minted p);
      objectURLs := {[ url ]} ∪ objectURLs p; className := className p |}).

(** [URL.revokeObjectURL(url)]. *)
Definition revokeObjectURL (url : string) (p : Page) : Page :=
  {| state := state p; minted := minted p;
     objectURLs := objectURLs p ∖ {[ url ]}; className := className p |}.

Definition dispatch (action : Action) (p : Page) : Page :=
  {| state := reducer (state p) action; minted := minted p;
     objectURLs := objectURLs p; className := className p |}.

(** [uploadedFiles.map(file => ({ ... }))] (lines 190-196): one entry and
    one object URL per file, in the order of the files. *)
Fixpoint newFiles (uploadedFiles : list File.t) (p : Page)
  : list Entry.t * Page :=
  match uploadedFiles with
  | [] => ([], p)
  | file :: rest =>
      let (url, p1) := createObjectURL p in
      let (entries, p2) := newFiles rest p1 in
      ({| Entry.name := File.name file;
          Entry.size := List.length (File.content file);
          Entry.file := file;
          Entry.previewUrl := url;
          Entry.type := File.type file |} :: entries, p2)
  end.

(** [handleFileUpload] (lines 187-199). *)
Definition handleFileUpload (uploadedFiles : list File.t) (p : Page) : Page :=
  let (entries, p1) := newFiles uploadedFiles p in
  dispatch (ADD_FILES entries) p1.

(** [removeFile] (lines 201-203). *)
Definition removeFile (name : string) (p : Page) : Page :=
  dispatch (REMOVE_FILE name) p.

(** [clearFiles] (lines 205-208): the URLs revoked are those of the files
    the state held when the function was called. *)
Definition clearFiles (p : Page) : Page :=
  fold_left (fun q file => revokeObjectURL (Entry.previewUrl file) q)
            (files (state p)) (dispatch CLEAR_FILES p).

(** [setTheme] (lines 210-213). *)
Definition setTheme (theme : string) (p : Page) : Page :=
  let p1 := dispatch (SET_THEME theme) p in
  {| state := state p1; minted := minted p1; objectURLs := objectURLs p1;
     className := Some theme |}.

Definition handle (p : Page) (ev : Event) : Page :=
  match ev with
  | Upload uploadedFiles => handleFileUpload uploadedFiles p
  | Remove name => removeFile name p
  | Clear => clearFiles p
  | Theme theme => setTheme theme p
  end.

(** The page after a sequence of events. *)
Definition after (evs : list Event) : Page := fold_left handle evs initialPage.

End Hook.

(** The profile the page starts with (lines 178-185). *)
Definition initialMetadata : Metadata :=
  {| title := None; authors := Some [];
     institution := institution config.defaultMetadata;
     website := website config.defaultMetadata;
     contact := contact config.defaultMetadata;
     source := None;
     dateFormat := Some "yyyy-m-d";
     licenseTemplate := Some config.licenseTextTemplate |}.

(** The authors the field holds (line 304):
    [value.split(',').map(a => a.trim())]. *)
Definition parseAuthors (value : string) : list string :=
  map Str.trim (Str.split "," value).

(** The text the field shows (line 303): [authors.join(', ')]. *)
Definition showAuthors (own : list string) : string := Str.join ", " own.

(** The options of the date format list (lines 333-335). *)
Inductive DateFormatOption := YYYY_MM_DD | MM_YYYY_DD | DD_MM_YYYY.

Definition option_value (o : DateFormatOption) : string :=
  match o with
  | YYYY_MM_DD => "yyyy-m-d"
  | MM_YYYY_DD => "m-yyyy-d"
  | DD_MM_YYYY => "d-m-yyyy"
  end.

(** The edits of the form (lines 300-336 and 353-356). *)
Inductive Edit :=
| EditAuthors (value : string)
| EditInstitution (value : string)
| EditWebsite (value : string)
| EditContact (value : string)
| EditDateFormat (value : DateFormatOption)
| EditTemplate (content : string).

(** [setMetadata({...metadata, field: value})]. *)
Definition edit (metadata : Metadata) (e : Edit) : Metadata :=
  let changed :=
    match e with
    | EditAuthors value =>
        {| title := None; authors := Some (parseAuthors value);
           institution := None; website := None; contact := None;
           source := None; dateFormat := None; licenseTemplate := None |}
    | EditInstitution value =>
        {| title := None; authors := None; institution := Some value;
           website := None; contact := None; source := None;
           dateFormat := None; licenseTemplate := None |}
    | EditWebsite value =>
        {| title := None; authors := None; institution := None;
           website := Some value; contact := None; source := None;
           dateFormat := None; licenseTemplate := None |}
    | EditContact value =>
        {| title := None; authors := None; institution := None;
           website := None; contact := Some value; source := None;
           dateFormat := None; licenseTemplate := None |}
    | EditDateFormat value =>
        {| title := None; authors := None; institution := None;
           website := None; contact := None; source := None;
           dateFormat := Some (option_value value);
           licenseTemplate := None |}
    | EditTemplate content =>
        {| title := None; authors := None; institution := None;
           website := None; contact := None; source := None;
           dateFormat := None; licenseTemplate := Some content |}
    end in
  spread metadata changed.

(** The profile after a sequence of edits. *)
Definition edited (edits : list Edit) : Metadata :=
  fold_left edit edits initialMetadata.

(** An entry that says of its file what the file says of itself. *)
Definition faithful (file : Entry.t) : Prop :=
  Entry.name file = File.name (Entry.file file) /\
  Entry.type file = File.type (Entry.file file) /\
  Entry.size file = List.length (File.content (Entry.file file)).

(** The shape of a profile of the page: it has no title and no source,
    it has authors, an institution, a website, a contact and a license
    template, and its date format is one of the three options. *)
Definition of_the_page (metadata : Metadata) : Prop :=
  title metadata = None /\ source metadata = None /\
  (exists own, authors metadata = Some own) /\
  (exists t, licenseTemplate metadata = Some t) /\
  (exists o, dateFormat metadata = Some (option_value o)) /\
  institution metadata <> None /\ website metadata <> None /\
  contact metadata <> None.

(** ** A sample page *)

Module SamplePage.

(** The object URLs of the sample browser: [blob:0], [blob:1], ... *)
Definition blob_url (n : nat) : string := "blob:" +:+ Str.of_N (N.of_nat n).

(** The entries an upload of [track.mp3] and of the document called [pdf]
    gives, in a browser that has created no object URL yet. *)
Definition track : Entry.t :=
  {| Entry.name := "track.mp3"; Entry.size := 6;
     Entry.file := Sample.tagged_mp3; Entry.previewUrl := "blob:0";
     Entry.type := "audio/mpeg" |}.

Definition document : Entry.t :=
  {| Entry.name := "pdf"; Entry.size := 5;
     Entry.file := Sample.pdf_without_extension;
     Entry.previewUrl := "blob:1"; Entry.type := "" |}.

(** Two files are uploaded. *)
Definition uploads : list Event :=
  [Upload [Sample.tagged_mp3; Sample.pdf_without_extension]].

(** Two files are uploaded, the document is removed, the theme changes. *)
Definition session : list Event :=
  [Upload [Sample.tagged_mp3; Sample.pdf_without_extension];
   Remove "pdf"; Theme "dark"].

(** Two authors and an institution are typed in. *)
Definition typing : list Edit :=
  [EditAuthors "Ada Lovelace , Alan Turing"; EditInstitution "Acme Labs"].

(** The profile asking for a new title, artist and album, with a
    template. *)
Definition retitled_with_template : Metadata :=
  {| title := Some "New"; authors := Some ["Ada Lovelace"];
     institution := None; website := None; contact := None;
     source := Some "Acme Labs";
     dateFormat := None; licenseTemplate := Some "File: {filename}" |}.

End SamplePage.

(** * Properties *)

(** ** Strings *)

Module StrFacts.

Lemma app_nil_r (s : string) : s +:+ "" = s.
Proof. induction s as [|c s IH]; simpl; congruence. Qed.

Lemma app_assoc (a b c : string) : (a +:+ b) +:+ c = a +:+ (b +:+ c).
Proof. induction a as [|x a IH]; simpl; congruence. Qed.

Lemma length_app (a b : string) :
  String.length (a +:+ b) = String.length a + String.length b.
Proof. induction a as [|x a IH]; simpl; congruence. Qed.

Lemma mem_app c a b : Str.mem c (a +:+ b) = Str.mem c a || Str.mem c b.
Proof.
  induction a as [|x a IH]; simpl; [reflexivity |].
  rewrite IH. apply orb_assoc.
Qed.

Lemma starts_with_inv t s :
  Str.starts_with t s = true -> exists r, s = t +:+ r.
Proof.
  revert s. induction t as [|x t IH]; intros s Hs.
  - now exists s.
  - destruct s as [|y s]; simpl in Hs; [discriminate |].
    apply andb_true_iff in Hs as [Hxy Hts].
    apply Ascii.eqb_eq in Hxy as ->.
    destruct (IH _ Hts) as [r ->]. now exists r.
Qed.

(** A text without [c] cannot start with a text whose first character is
    [c]; more is true, but this is what the scans need. *)
Lemma starts_with_head c t x s :
  Ascii.eqb c x = false -> Str.starts_with (String c t) (String x s) = false.
Proof. intros E. simpl. now rewrite E. Qed.

(** Two texts that end at their first [c] are equal as soon as what
    follows them is laid side by side. *)
Lemma app_stop_inj c a b x y :
  Str.mem c a = false -> Str.mem c b = false ->
  a +:+ String c x = b +:+ String c y -> a = b.
Proof.
  revert b. induction a as [|p a IH]; intros [|q b] Ha Hb E; simpl in *.
  - reflexivity.
  - injection E as E _. subst q.
    now rewrite Ascii.eqb_refl in Hb.
  - injection E as E _. subst p.
    now rewrite Ascii.eqb_refl in Ha.
  - injection E as -> E.
    apply orb_false_iff in Ha as [_ Ha].
    apply orb_false_iff in Hb as [_ Hb].
    f_equal. now apply IH.
Qed.

Lemma digit_not c x :
  Str.is_digit c = false -> Str.is_digit x = true -> Ascii.eqb x c = false.
Proof.
  intros Hc Hx. destruct (Ascii.eqb_spec x c) as [->|]; congruence.
Qed.

Lemma mem_of_uint c d :
  Str.is_digit c = false -> Str.mem c (NilEmpty.string_of_uint d) = false.
Proof.
  intros Hc.
  induction d as [|d IH|d IH|d IH|d IH|d IH|d IH|d IH|d IH|d IH|d IH];
    cbn [NilEmpty.string_of_uint Str.mem]; [reflexivity|..];
    rewrite IH, orb_false_r; now apply digit_not.
Qed.

(** The decimal notation of a number holds digits only. *)
Lemma mem_of_N c n : Str.is_digit c = false -> Str.mem c (Str.of_N n) = false.
Proof.
  intros Hc. unfold Str.of_N, NilZero.string_of_uint.
  destruct (N.to_uint n) eqn:E; try apply (mem_of_uint c _ Hc).
  cbn [Str.mem]. rewrite orb_false_r. now apply digit_not.
Qed.

Lemma clean_of_N n : clean (Str.of_N n) = true.
Proof. unfold clean. now rewrite !mem_of_N. Qed.

End StrFacts.

(** ** The matcher and the global replace on literal patterns *)

Module RegexFacts.

Import Regex.

Lemma match_lit_app t r : match_here (lit t) (t +:+ r) = Some ([], t, r).
Proof.
  induction t as [|x t IH]; simpl; [reflexivity |].
  now rewrite Ascii.eqb_refl, IH.
Qed.

Lemma match_lit_none t s :
  Str.starts_with t s = false -> match_here (lit t) s = None.
Proof.
  revert s. induction t as [|x t IH]; intros s; simpl; [discriminate |].
  destruct s as [|y s]; [reflexivity |].
  destruct (Ascii.eqb x y); simpl; [| reflexivity].
  intros Hs. now rewrite (IH _ Hs).
Qed.

(** The replacement patterns, on examples. *)

Example replace_all_every_occurrence :
  replace_all (lit "{year}") "2024" "{year}-{year} {Year}" =
  "2024-2024 {Year}".
Proof. reflexivity. Qed.

Example replace_all_is_not_rescanned :
  replace_all (lit "ab") "aab" "abab" = "aabaab".
Proof. reflexivity. Qed.

Example replace_all_dollar_patterns :
  replace_all (lit "{x}") "[$$|$&|$`|$'|$1|$<a>]" "a{x}b" =
  "a[$|{x}|a|b|$1|$<a>]b".
Proof. reflexivity. Qed.

Example replace_first_captures :
  replace_first [Digits 1 2; Lit "/"; Digits 4 4] "$2-$1" "5/3/2024 7/2025" =
  "5/2024-3 7/2025".
Proof. reflexivity. Qed.

Example replace_first_two_digit_reference :
  replace_first [Digits 1 2; Lit "/"; Digits 4 4] "$10|$02|$00|$3" "3/2024" =
  "30|2024|$00|$3".
Proof. reflexivity. Qed.

Example replace_first_backtracks :
  replace_first [Digits 1 2; Lit "/"; Digits 1 2; Lit "/"; Digits 4 4]
    "$1-$2-$3" "on 5/12/20245" = "on 5-12-20245".
Proof. reflexivity. Qed.

(** A replacement text without a dollar sign stands for itself. *)
Lemma substitution_plain m b a caps v :
  Str.mem "$" v = false -> get_substitution m b a caps v = v.
Proof.
  induction v as [|c v IH]; intros Hv; [reflexivity |].
  simpl in Hv. apply orb_false_iff in Hv as [Hc Hv].
  simpl. rewrite Hc. simpl. now rewrite IH.
Qed.

Lemma scan_cons p v b c s :
  replace_scan p v b (String c s) 0 =
  match match_here p (String c s) with
  | Some (caps, m, after) =>
      let sub := get_substitution m b after caps v in
      match String.length m with
      | 0 => sub +:+ String c (replace_scan p v (b +:+ String c "") s 0)
      | S k => sub +:+ replace_scan p v (b +:+ String c "") s k
      end
  | None => String c (replace_scan p v (b +:+ String c "") s 0)
  end.
Proof. reflexivity. Qed.

(** The characters of a match are passed over without being looked at. *)
Lemma scan_skip p v b x r k :
  replace_scan p v b (x +:+ r) (String.length x + k) =
  replace_scan p v (b +:+ x) r k.
Proof.
  revert b. induction x as [|c x IH]; intros b; simpl.
  - now rewrite StrFacts.app_nil_r.
  - rewrite IH. f_equal. now rewrite StrFacts.app_assoc.
Qed.

(** At an occurrence of the text, its expansion is written and the scan
    goes on behind the occurrence. *)
Lemma scan_hit c t v b r :
  replace_scan (lit (String c t)) v b (String c t +:+ r) 0 =
  get_substitution (String c t) b r [] v +:+
  replace_scan (lit (String c t)) v (b +:+ String c t) r 0.
Proof.
  change (String c t +:+ r) with (String c (t +:+ r)).
  rewrite scan_cons.
  change (String c (t +:+ r)) with (String c t +:+ r).
  rewrite match_lit_app. cbn [String.length]. cbv zeta. f_equal.
  rewrite <- (Nat.add_0_r (String.length t)), scan_skip.
  now rewrite StrFacts.app_assoc.
Qed.

(** Elsewhere the character is copied. *)
Lemma scan_miss t v b c s :
  Str.starts_with t (String c s) = false ->
  replace_scan (lit t) v b (String c s) 0 =
  String c (replace_scan (lit t) v (b +:+ String c "") s 0).
Proof. intros Hs. now rewrite scan_cons, match_lit_none. Qed.

(** A stretch of text without the first character of the pattern is
    copied. *)
Lemma scan_text c t v b s r :
  Str.mem c s = false ->
  replace_scan (lit (String c t)) v b (s +:+ r) 0 =
  s +:+ replace_scan (lit (String c t)) v (b +:+ s) r 0.
Proof.
  revert b. induction s as [|x s IH]; intros b Hs.
  - now rewrite StrFacts.app_nil_r.
  - simpl in Hs. apply orb_false_iff in Hs as [Hx Hs].
    change (String x s +:+ r) with (String x (s +:+ r)).
    rewrite scan_miss.
    + rewrite IH by assumption. simpl. f_equal. f_equal.
      now rewrite StrFacts.app_assoc.
    + apply StrFacts.starts_with_head. now rewrite Ascii.eqb_sym.
Qed.

(** Against a replacement without dollar sign, the global replace of the
    engine is the literal replacement of the specification. *)
Lemma scan_literal c t v s :
  Str.mem "$" v = false ->
  forall b skip,
    replace_scan (lit (String c t)) v b s skip =
    replace_literal_scan (String c t) v s skip.
Proof.
  intros Hv. induction s as [|x s IH]; intros b skip.
  - destruct skip; reflexivity.
  - destruct skip as [|k]; [| simpl; apply IH].
    rewrite scan_cons. cbn [replace_literal_scan].
    destruct (Str.starts_with (String c t) (String x s)) eqn:E.
    + destruct (StrFacts.starts_with_inv _ _ E) as [r Er].
      rewrite Er at 1. rewrite match_lit_app.
      cbn [String.length]. cbv zeta.
      rewrite substitution_plain by assumption.
      replace (S (String.length t) - 1) with (String.length t) by lia.
      f_equal. apply IH.
    + rewrite match_lit_none by assumption. f_equal. apply IH.
Qed.

Lemma replace_all_literal c t v s :
  Str.mem "$" v = false ->
  replace_all (lit (String c t)) v s = replace_literal (String c t) v s.
Proof. intros Hv. now apply scan_literal. Qed.

End RegexFacts.

(** ** Substitution in well-formed templates *)

Module TemplateFacts.

Import Regex Template.

Lemma mem_brace_name n : plain_name n = true -> Str.mem "{" (n +:+ "}") = false.
Proof.
  unfold plain_name. intros Hn. apply andb_true_iff in Hn as [Hn _].
  apply negb_true_iff in Hn. now rewrite StrFacts.mem_app, Hn.
Qed.

(** A placeholder of another name is not an occurrence of [{n}]. *)
Lemma hole_miss n n' r :
  plain_name n = true -> plain_name n' = true -> String.eqb n' n = false ->
  Str.starts_with (placeholder n) (placeholder n' +:+ r) = false.
Proof.
  intros Hn Hn' E.
  destruct (Str.starts_with _ _) eqn:S; [| reflexivity].
  apply StrFacts.starts_with_inv in S as [r' Er]. exfalso.
  unfold placeholder in Er. simpl in Er. injection Er as Er.
  rewrite !StrFacts.app_assoc in Er. simpl in Er.
  apply andb_true_iff in Hn as [_ Hn]. apply negb_true_iff in Hn.
  apply andb_true_iff in Hn' as [_ Hn']. apply negb_true_iff in Hn'.
  apply StrFacts.app_stop_inj in Er; [| assumption ..].
  subst n'. now rewrite String.eqb_refl in E.
Qed.

Section OnePass.

Context `{Host}.

(** One replacement of the chain fills exactly the placeholders of its
    name. *)
Lemma substitute_scan n v l :
  wf l = true -> plain_name n = true -> Str.mem "$" v = false ->
  forall b,
    replace_scan (lit (placeholder n)) v b (flatten l) 0 =
    flatten (map (fill n v) l).
Proof.
  intros Hl Hn Hv. induction l as [|x l IH]; intros b; [reflexivity |].
  simpl in Hl. apply andb_true_iff in Hl as [Hx Hl].
  specialize (IH Hl). destruct x as [s | n']; simpl in Hx.
  - apply negb_true_iff in Hx. cbn [flatten seg_text map fill].
    change (placeholder n) with (String "{" (n +:+ "}")).
    rewrite RegexFacts.scan_text by assumption. f_equal. apply IH.
  - cbn [flatten seg_text map fill].
    destruct (String.eqb n' n) eqn:E.
    + apply String.eqb_eq in E as ->. cbn [seg_text].
      change (placeholder n) with (String "{" (n +:+ "}")).
      rewrite RegexFacts.scan_hit, RegexFacts.substitution_plain
        by assumption.
      f_equal. apply IH.
    + cbn [seg_text].
      change (placeholder n' +:+ flatten l)
        with (String "{" ((n' +:+ "}") +:+ flatten l)).
      rewrite RegexFacts.scan_miss by (now apply hole_miss).
      change (placeholder n) with (String "{" (n +:+ "}")).
      rewrite RegexFacts.scan_text by (now apply mem_brace_name).
      change (placeholder n' +:+ flatten (map (fill n v) l))
        with (String "{" ((n' +:+ "}") +:+ flatten (map (fill n v) l))).
      f_equal. f_equal. apply IH.
Qed.

Lemma substitute_flatten n v l :
  wf l = true -> plain_name n = true -> Str.mem "$" v = false ->
  substitute n v (flatten l) = flatten (map (fill n v) l).
Proof. intros. now apply substitute_scan. Qed.

Lemma wf_fill n v l :
  wf l = true -> Str.mem "{" v = false -> wf (map (fill n v) l) = true.
Proof.
  intros Hl Hv. induction l as [|x l IH]; [reflexivity |].
  simpl in Hl. apply andb_true_iff in Hl as [Hx Hl].
  simpl. rewrite IH, andb_true_r by assumption.
  destruct x as [s | n']; simpl; [assumption |].
  destruct (String.eqb n' n); simpl; [now rewrite Hv | assumption].
Qed.

Lemma fill_all_cons n v env x :
  fill_all env (fill n v x) = fill_all ((n, v) :: env) x.
Proof.
  destruct x as [s | n']; [reflexivity |]. simpl.
  now destruct (String.eqb n' n).
Qed.

(** The chain of replacements is one simultaneous pass, on a well-formed
    template and for clean values. *)
Lemma chain_flatten env l :
  wf l = true ->
  forallb (fun p => plain_name (fst p)) env = true ->
  forallb (fun p => clean (snd p)) env = true ->
  substitute_chain env (flatten l) = flatten (map (fill_all env) l).
Proof.
  revert l. induction env as [|[n v] env IH]; intros l Hl Hn Hv.
  - simpl. f_equal. induction l as [|x l IHl]; [reflexivity |].
    simpl in Hl. apply andb_true_iff in Hl as [_ Hl].
    simpl. rewrite <- IHl by assumption. now destruct x.
  - simpl in Hn, Hv.
    apply andb_true_iff in Hn as [Hn Hns].
    apply andb_true_iff in Hv as [Hv Hvs].
    unfold clean in Hv. apply andb_true_iff in Hv as [Hb Hd].
    apply negb_true_iff in Hb. apply negb_true_iff in Hd.
    cbn [substitute_chain].
    rewrite substitute_flatten by assumption.
    rewrite IH by (try assumption; now apply wf_fill).
    rewrite map_map. f_equal. apply map_ext. intros x.
    apply fill_all_cons.
Qed.

End OnePass.

(** Text without opening brace holds no occurrence of a placeholder. *)
Lemma occurs_text n s r :
  Str.mem "{" s = false ->
  Str.occurs (placeholder n) (s +:+ r) = Str.occurs (placeholder n) r.
Proof.
  intros Hs. induction s as [|x s IH]; [reflexivity |].
  simpl in Hs. apply orb_false_iff in Hs as [Hx Hs].
  change (String x s +:+ r) with (String x (s +:+ r)).
  cbn [Str.occurs]. rewrite IH by assumption.
  change (placeholder n) with (String "{" (n +:+ "}")).
  rewrite StrFacts.starts_with_head; [reflexivity |].
  now rewrite Ascii.eqb_sym.
Qed.

(** A well-formed template without the placeholder [{n}] among its pieces
    holds no occurrence of it. *)
Lemma occurs_flatten n l :
  wf l = true -> plain_name n = true -> has_hole n l = false ->
  Str.occurs (placeholder n) (flatten l) = false.
Proof.
  intros Hl Hn Hh. induction l as [|x l IH].
  - change (placeholder n) with (String "{" (n +:+ "}")). reflexivity.
  - simpl in Hl, Hh.
    apply andb_true_iff in Hl as [Hx Hl].
    apply orb_false_iff in Hh as [Hxn Hh].
    specialize (IH Hl Hh). destruct x as [s | n']; simpl in Hx.
    + apply negb_true_iff in Hx. cbn [flatten seg_text].
      now rewrite occurs_text.
    + cbn [flatten seg_text].
      change (placeholder n' +:+ flatten l)
        with (String "{" ((n' +:+ "}") +:+ flatten l)).
      cbn [Str.occurs].
      rewrite occurs_text by (now apply mem_brace_name).
      rewrite IH, orb_false_r.
      now apply (hole_miss n n' (flatten l)).
Qed.

Lemma has_hole_fill_all n env l :
  (exists v, assoc n env = Some v) ->
  has_hole n (map (fill_all env) l) = false.
Proof.
  intros [v Hv]. induction l as [|x l IH]; [reflexivity |].
  simpl. rewrite IH, orb_false_r.
  destruct x as [s | n']; [reflexivity |]. simpl.
  destruct (assoc n' env) eqn:E; [reflexivity |].
  destruct (String.eqb_spec n' n) as [->|]; congruence.
Qed.

Lemma wf_fill_all env l :
  wf l = true -> forallb (fun p => clean (snd p)) env = true ->
  wf (map (fill_all env) l) = true.
Proof.
  intros Hl Hv. induction l as [|x l IH]; [reflexivity |].
  simpl in Hl. apply andb_true_iff in Hl as [Hx Hl].
  simpl. rewrite IH, andb_true_r by assumption.
  destruct x as [s | n]; [assumption |]. simpl.
  destruct (assoc n env) as [v|] eqn:E; [| assumption].
  simpl. clear -E Hv.
  induction env as [|[n' v'] env IH]; [discriminate |].
  simpl in E, Hv. apply andb_true_iff in Hv as [Hv Hvs].
  destruct (String.eqb n n').
  - injection E as ->. unfold clean in Hv.
    now apply andb_true_iff in Hv as [Hv _].
  - now apply IH.
Qed.

End TemplateFacts.

(** ** How the functions of the pipeline run *)

Section Runs.

Context `{Host}.

(** With a template the renderer returns, after one reading of the
    clock. *)
Lemma generateLicenseContent_run filename metadata w t :
  licenseTemplate metadata = Some t ->
  generateLicenseContent filename metadata w =
  (Ok (trimLines
         (replaceVariables filename
            (formatDate (now w) (dateFormat metadata)) (now w) metadata
            (plainText t))),
   tick w).
Proof.
  intros E. unfold generateLicenseContent, bind, new_Date. simpl.
  now rewrite E.
Qed.

(** Without one it throws: [undefined] has no [replace]. *)
Lemma generateLicenseContent_throw filename metadata w :
  licenseTemplate metadata = None ->
  generateLicenseContent filename metadata w =
  (Throw (TypeError "metadata.licenseTemplate is undefined"), tick w).
Proof.
  intros E. unfold generateLicenseContent, bind, new_Date. simpl.
  now rewrite E.
Qed.

Lemma replaceVariables_chain filename date metadata text :
  replaceVariables filename (formatDate date (dateFormat metadata)) date
    metadata text =
  substitute_chain (values filename date metadata) text.
Proof. reflexivity. Qed.

Lemma replaceVariables_last filename date metadata text :
  replaceVariables filename (formatDate date (dateFormat metadata)) date
    metadata text =
  substitute "authorsList" (authorsList_of metadata)
    (beforeAuthors filename date metadata text).
Proof. reflexivity. Qed.

Lemma clean_values_all filename date metadata :
  clean_values filename date metadata = true ->
  forallb (fun p => clean (snd p)) (values filename date metadata) = true.
Proof.
  unfold clean_values, values. cbn [forallb snd]. intros C.
  repeat (apply andb_true_iff in C as [? C]).
  rewrite StrFacts.clean_of_N.
  repeat match goal with
         | V : clean _ = true |- _ => rewrite V; clear V
         end.
  reflexivity.
Qed.

(** The audio embedder where [parseBuffer] returns. *)
Lemma attachAudioMetadata_ok file metadata tags own w :
  parseBuffer (File.content file) (File.type file) = Ok tags ->
  authors metadata = Some own ->
  attachAudioMetadata file metadata w =
  (Ok {| blob_data := Raw (File.content file);
         blob_type := File.type file |}, w).
Proof.
  intros Hp Ha.
  unfold attachAudioMetadata, try_catch, bind, lift, authors_of.
  now rewrite Hp, Ha.
Qed.


(** What [attachMetadataToDownload] does when the embedder throws. *)
Lemma attachMetadataToDownload_caught file custom h e w w1 :
  let metadata :=
    spread config.defaultMetadata
      (match custom with Some c => c | None => emptyMetadata end) in
  embedder (File.name file) = Some h ->
  run_handler h file metadata w = (Throw e, w1) ->
  attachMetadataToDownload file custom w =
  (let* licenseContent :=
     generateLicenseContent (File.name file) metadata in
   ret {| processedFile := OfFile file;
          licenseBlob := text_plain licenseContent |})
    (logged "Error attaching metadata:" e w1).
Proof.
  intros metadata Hh Hr.
  unfold attachMetadataToDownload, try_catch. fold metadata.
  rewrite Hh. unfold bind at 1 2. rewrite Hr. reflexivity.
Qed.

(** What it does when no embedder is found. *)
Lemma attachMetadataToDownload_plain file custom t w :
  let metadata :=
    spread config.defaultMetadata
      (match custom with Some c => c | None => emptyMetadata end) in
  embedder (File.name file) = None ->
  licenseTemplate metadata = Some t ->
  attachMetadataToDownload file custom w =
  (Ok {| processedFile := OfFile file;
         licenseBlob :=
           text_plain
             (trimLines
                (replaceVariables (File.name file)
                   (formatDate (now w) (dateFormat metadata)) (now w)
                   metadata (plainText t))) |},
   tick w).
Proof.
  intros metadata Hh Ht.
  unfold attachMetadataToDownload, try_catch. fold metadata.
  rewrite Hh. unfold bind at 1 2. unfold ret at 1.
  now rewrite (generateLicenseContent_run _ _ _ _ Ht).
Qed.

(** None of the functions below [downloadFile] triggers a download. *)

Lemma keeps_ret {A} (a : A) : keeps_downloads (ret a).
Proof. now intros w. Qed.

Lemma keeps_throw {A} e : keeps_downloads (@throw A e).
Proof. now intros w. Qed.

Lemma keeps_lift {A} (r : Result A) : keeps_downloads (lift r).
Proof. now intros w. Qed.

Lemma keeps_new_Date : keeps_downloads new_Date.
Proof. now intros w. Qed.

Lemma keeps_console_error label e : keeps_downloads (console_error label e).
Proof. now intros w. Qed.

Lemma keeps_bind {A B} (m : M A) (k : A -> M B) :
  keeps_downloads m -> (forall a, keeps_downloads (k a)) ->
  keeps_downloads (bind m k).
Proof.
  intros Hm Hk w. unfold bind. specialize (Hm w).
  destruct (m w) as [[a|e] w1]; simpl in *; [| assumption].
  now rewrite Hk.
Qed.

Lemma keeps_try_catch {A} (m : M A) (k : Error -> M A) :
  keeps_downloads m -> (forall e, keeps_downloads (k e)) ->
  keeps_downloads (try_catch m k).
Proof.
  intros Hm Hk w. unfold try_catch. specialize (Hm w).
  destruct (m w) as [[a|e] w1]; simpl in *; [assumption |].
  now rewrite Hk.
Qed.

Ltac keeps :=
  repeat first
    [ apply keeps_ret | apply keeps_throw | apply keeps_lift
    | apply keeps_new_Date | apply keeps_console_error
    | apply keeps_bind; [| intros ?] | apply keeps_try_catch; [| intros ?]
    | match goal with |- keeps_downloads (match ?x with _ => _ end) =>
        destruct x end ].

Lemma generateLicenseContent_keeps filename metadata :
  keeps_downloads (generateLicenseContent filename metadata).
Proof. unfold generateLicenseContent. keeps. Qed.

Lemma run_handler_keeps h file metadata :
  keeps_downloads (run_handler h file metadata).
Proof.
  destruct h; simpl; [unfold attachAudioMetadata | unfold attachPDFMetadata];
    keeps.
Qed.

Lemma attachMetadataToDownload_keeps file custom :
  keeps_downloads (attachMetadataToDownload file custom).
Proof.
  unfold attachMetadataToDownload.
  keeps; try apply generateLicenseContent_keeps;
    try apply run_handler_keeps; keeps.
Qed.

End Runs.

(** ** Line trimming keeps occurrences apart

    What occurs in the trimmed text occurred in the text: trimming removes
    characters at the ends of lines only and keeps every line feed. *)

Module TrimFacts.

Lemma starts_with_app_l t a z :
  Str.starts_with t a = true -> Str.starts_with t (a +:+ z) = true.
Proof.
  revert a. induction t as [|x t IH]; intros a Ha; [reflexivity |].
  destruct a as [|y a]; simpl in Ha; [discriminate |].
  apply andb_true_iff in Ha as [Hxy Ha]. simpl.
  now rewrite Hxy, IH.
Qed.

Lemma occurs_app_l t a z :
  Str.occurs t a = true -> Str.occurs t (a +:+ z) = true.
Proof.
  induction a as [|y a IH]; intros Ha.
  - simpl in Ha. rewrite orb_false_r in Ha.
    destruct t; [| discriminate]. now destruct z.
  - change (String y a +:+ z) with (String y (a +:+ z)).
    cbn [Str.occurs] in *. apply orb_true_iff in Ha as [Ha | Ha].
    + apply (starts_with_app_l _ _ z) in Ha.
      change (String y a +:+ z) with (String y (a +:+ z)) in Ha.
      now rewrite Ha.
    + rewrite IH by assumption. apply orb_true_r.
Qed.

Lemma starts_with_sep c t x r :
  Str.mem c t = false ->
  Str.starts_with t (x +:+ String c r) = Str.starts_with t x.
Proof.
  revert x. induction t as [|a t IH]; intros x Ht; [now destruct x |].
  simpl in Ht. apply orb_false_iff in Ht as [Ha Ht].
  destruct x as [|b x]; simpl.
  - now rewrite Ha.
  - now rewrite IH.
Qed.

(** An occurrence of a text without [c] lies on one side of a [c]. *)
Lemma occurs_sep c t x r :
  Str.mem c t = false ->
  Str.occurs t (x +:+ String c r) = Str.occurs t x || Str.occurs t r.
Proof.
  intros Ht. induction x as [|b x IH].
  - change ("" +:+ String c r) with (String c r). cbn [Str.occurs].
    rewrite orb_false_r.
    change (String c r) with ("" +:+ String c r) at 1.
    now rewrite starts_with_sep.
  - change (String b x +:+ String c r) with (String b (x +:+ String c r)).
    cbn [Str.occurs]. rewrite IH.
    change (String b (x +:+ String c r))
      with (String b x +:+ String c r).
    rewrite starts_with_sep by assumption. now rewrite orb_assoc.
Qed.

Lemma trimStart_occurs t s :
  Str.occurs t (Str.trimStart s) = true -> Str.occurs t s = true.
Proof.
  induction s as [|c s IH]; [easy |]. cbn [Str.trimStart].
  destruct (Str.is_space c); [| easy].
  intros Hs. cbn [Str.occurs]. rewrite IH by assumption.
  apply orb_true_r.
Qed.

Lemma trimEnd_prefix s : exists z, s = Str.trimEnd s +:+ z.
Proof.
  induction s as [|c s [z IH]]; [now exists "" |].
  cbn [Str.trimEnd]. destruct (Str.trimEnd s) as [|y u].
  - destruct (Str.is_space c).
    + now exists (String c s).
    + exists s. reflexivity.
  - exists z. simpl. now rewrite IH at 1.
Qed.

Lemma trim_occurs t s :
  Str.occurs t (Str.trim s) = true -> Str.occurs t s = true.
Proof.
  unfold Str.trim. intros Hs. apply trimStart_occurs.
  destruct (trimEnd_prefix (Str.trimStart s)) as [z Hz].
  rewrite Hz. now apply occurs_app_l.
Qed.

Lemma split_not_nil c s : Str.split c s <> [].
Proof.
  destruct s as [|x s]; [easy |]. simpl.
  destruct (Ascii.eqb x c); [easy |]. now destruct (Str.split c s).
Qed.

Lemma join_cons sep x y l :
  Str.join sep (x :: y :: l) = x +:+ sep +:+ Str.join sep (y :: l).
Proof. reflexivity. Qed.

(** Joining what was split gives the text back. *)
Lemma join_split c s : Str.join (String c "") (Str.split c s) = s.
Proof.
  induction s as [|x s IH]; [reflexivity |]. simpl.
  destruct (Ascii.eqb_spec x c) as [->|].
  - pose proof (split_not_nil c s) as N.
    destruct (Str.split c s) as [|y l]; [easy |].
    rewrite join_cons, IH. reflexivity.
  - pose proof (split_not_nil c s) as N.
    destruct (Str.split c s) as [|y l]; [easy |].
    destruct l as [|y' l]; simpl in *; now rewrite <- IH.
Qed.

(** An occurrence in the joined lines lies in one line. *)
Lemma occurs_join c t l :
  Str.mem c t = false -> l <> [] ->
  Str.occurs t (Str.join (String c "") l) = existsb (Str.occurs t) l.
Proof.
  intros Ht. induction l as [|x l IH]; [easy |]. intros _.
  destruct l as [|y l].
  - simpl. now rewrite orb_false_r.
  - rewrite join_cons.
    change (x +:+ String c "" +:+ Str.join (String c "") (y :: l))
      with (x +:+ String c (Str.join (String c "") (y :: l))).
    rewrite occurs_sep by assumption. rewrite IH by easy. reflexivity.
Qed.

Lemma occurs_trimLines t s :
  Str.mem LF t = false ->
  Str.occurs t (trimLines s) = true -> Str.occurs t s = true.
Proof.
  intros Ht. unfold trimLines, newline.
  rewrite occurs_join
    by (try assumption; pose proof (split_not_nil LF s);
        now destruct (Str.split LF s)).
  rewrite <- (join_split LF s) at 2.
  rewrite occurs_join by (try assumption; apply split_not_nil).
  generalize (Str.split LF s). intros l.
  induction l as [|x l IH]; [easy |]. simpl.
  intros Hx. apply orb_true_iff in Hx as [Hx | Hx].
  - now rewrite (trim_occurs _ _ Hx).
  - rewrite IH by assumption. apply orb_true_r.
Qed.

End TrimFacts.

(** ** The claims of the specification *)

Section Claims.

Context `{Host}.

Import Template.

(** On a well-formed template and for clean values the text the chain
    produces is the template with every placeholder of the vocabulary
    filled, and none of the seven placeholders occurs in the license. *)
Lemma replaceVariables_filled filename date metadata l :
  wf l = true -> clean_values filename date metadata = true ->
  let substituted :=
    replaceVariables filename (formatDate date (dateFormat metadata)) date
      metadata (flatten l) in
  substituted = flatten (map (fill_all (values filename date metadata)) l) /\
  forall n, In n tokens ->
    Str.occurs (placeholder n) (trimLines substituted) = false.
Proof.
  intros Hl Hv substituted.
  assert (E : substituted =
              flatten (map (fill_all (values filename date metadata)) l)).
  { unfold substituted. rewrite replaceVariables_chain.
    apply TemplateFacts.chain_flatten;
      [assumption | reflexivity | now apply clean_values_all]. }
  split; [exact E |]. intros n Hn.
  destruct (Str.occurs _ (trimLines _)) eqn:O; [| reflexivity].
  apply TrimFacts.occurs_trimLines in O.
  - rewrite E in O. rewrite TemplateFacts.occurs_flatten in O.
    + discriminate.
    + apply TemplateFacts.wf_fill_all;
        [assumption | now apply clean_values_all].
    + repeat (destruct Hn as [<- | Hn]; [reflexivity |]). destruct Hn.
    + apply TemplateFacts.has_hole_fill_all.
      repeat (destruct Hn as [<- | Hn]; [eexists; reflexivity |]).
      destruct Hn.
  - repeat (destruct Hn as [<- | Hn]; [reflexivity |]). destruct Hn.
Qed.

(** C1 (amended).  When the embedder a file is routed to throws and the
    metadata carries a license template, [attachMetadataToDownload]
    returns: the processed file is the input file itself, and the license
    is the text the renderer produces from the merged metadata.  If the
    plain template is well formed and the substituted values are clean,
    every placeholder of the vocabulary in it is filled with its value or
    default, and none of the seven placeholders occurs in the license. *)
Theorem attachMetadataToDownload_fallback file custom h e w w1 t :
  let metadata :=
    spread config.defaultMetadata
      (match custom with Some c => c | None => emptyMetadata end) in
  let w2 := logged "Error attaching metadata:" e w1 in
  let substituted :=
    replaceVariables (File.name file)
      (formatDate (now w2) (dateFormat metadata)) (now w2) metadata
      (plainText t) in
  embedder (File.name file) = Some h ->
  run_handler h file metadata w = (Throw e, w1) ->
  licenseTemplate metadata = Some t ->
  attachMetadataToDownload file custom w =
  (Ok {| processedFile := OfFile file;
         licenseBlob := text_plain (trimLines substituted) |}, tick w2) /\
  (forall l,
      plainText t = flatten l -> wf l = true ->
      clean_values (File.name file) (now w2) metadata = true ->
      substituted =
      flatten (map (fill_all (values (File.name file) (now w2) metadata)) l)
      /\
      forall n, In n tokens ->
        Str.occurs (placeholder n) (trimLines substituted) = false).
Proof.
  intros metadata w2 substituted Hh Hr Ht. split.
  - rewrite (attachMetadataToDownload_caught _ _ _ _ _ _ Hh Hr).
    fold metadata w2. unfold bind.
    now rewrite (generateLicenseContent_run _ _ _ _ Ht).
  - intros l Hp Hl Hv. unfold substituted. rewrite Hp.
    now apply replaceVariables_filled.
Qed.

(** Whatever the metadata, the blob the audio embedder returns reads back
    with the tags the file had. *)
Lemma attachAudioMetadata_read_back file metadata tags own w :
  parseBuffer (File.content file) (File.type file) = Ok tags ->
  authors metadata = Some own ->
  exists blob,
    attachAudioMetadata file metadata w = (Ok blob, w) /\
    read_back blob = Ok tags.
Proof.
  intros Hp Ha. eexists. split.
  - now apply (attachAudioMetadata_ok _ _ _ _ _ Hp Ha).
  - exact Hp.
Qed.

(** The template is the one property the renderer cannot do without: on
    the defaults alone, which have none, it throws a [TypeError], and so
    does [attachMetadataToDownload] called without [customMetadata].  No
    call of the program is of this kind: [downloadFile], the only caller of
    both, hands them the profile of the page, which always has a template
    ([edited_of_the_page]). *)
Lemma generateLicenseContent_without_template filename file w :
  fst (generateLicenseContent filename
         (spread config.defaultMetadata emptyMetadata) w) =
  Throw (TypeError "metadata.licenseTemplate is undefined") /\
  fst (attachMetadataToDownload file None w) =
  Throw (TypeError "metadata.licenseTemplate is undefined").
Proof.
  assert (T : forall name w0,
             generateLicenseContent name
               (spread config.defaultMetadata emptyMetadata) w0 =
             (Throw (TypeError "metadata.licenseTemplate is undefined"),
              tick w0))
    by (intros name w0; now apply generateLicenseContent_throw).
  split; [now rewrite T |].
  unfold attachMetadataToDownload, try_catch, bind, ret, console_error.
  destruct (embedder (File.name file)) as [h'|].
  - destruct (run_handler h' file _ w) as [[b|e] w1]; now rewrite !T.
  - now rewrite !T.
Qed.

(** With a template the renderer always returns. *)
Lemma generateLicenseContent_total filename metadata w t :
  licenseTemplate metadata = Some t ->
  exists text, generateLicenseContent filename metadata w = (Ok text, tick w).
Proof.
  intros Ht. eexists. apply (generateLicenseContent_run _ _ _ _ Ht).
Qed.


(** C4 (amended).  The placeholders are substituted by a chain of seven
    global replacements.  On a well-formed template and for clean values
    the chain is one simultaneous pass: the license is the line-trimmed
    template in which every placeholder of the vocabulary is filled with
    its value and every other placeholder is left as written. *)
Theorem generateLicenseContent_single_pass filename metadata w t l :
  licenseTemplate metadata = Some t ->
  plainText t = flatten l ->
  wf l = true ->
  clean_values filename (now w) metadata = true ->
  generateLicenseContent filename metadata w =
  (Ok (trimLines
         (flatten (map (fill_all (values filename (now w) metadata)) l))),
   tick w).
Proof.
  intros Ht Hp Hl Hv.
  rewrite (generateLicenseContent_run _ _ _ _ Ht), Hp.
  now destruct (replaceVariables_filled filename (now w) metadata l Hl Hv)
    as [-> _].
Qed.

(** Names that reach an embedder are exactly those whose last
    dot-separated part, lower-cased, is one of the five keys with a
    handler. *)
Lemma embedder_keys name h :
  embedder name = Some h ->
  In (fileExtension name) ["wav"; "mp3"; "ogg"; "flac"; "pdf"].
Proof.
  unfold embedder, resolve. generalize (fileExtension name). intros ext.
  unfold config.supportedTypes. cbn [list_to_map foldr].
  repeat match goal with
  | |- context [<[ ?k := ?v ]> ?m !! ext] =>
      rewrite (lookup_insert m k ext v); destruct (decide (k = ext)) as [<-|]
  end; cbn; try discriminate; intros _; tauto.
Qed.

Lemma embedder_unknown name :
  ~ In (fileExtension name) ["wav"; "mp3"; "ogg"; "flac"; "pdf"] ->
  embedder name = None.
Proof.
  intros N. destruct (embedder name) as [h|] eqn:E; [| reflexivity].
  exfalso. apply N. now apply (embedder_keys name h).
Qed.

(** A file without embedder passes through, and its license is rendered
    (given a template). *)
Lemma attachMetadataToDownload_pass_through file custom t w :
  let metadata :=
    spread config.defaultMetadata
      (match custom with Some c => c | None => emptyMetadata end) in
  embedder (File.name file) = None ->
  licenseTemplate metadata = Some t ->
  exists license,
    attachMetadataToDownload file custom w =
    (Ok {| processedFile := OfFile file;
           licenseBlob := text_plain license |}, tick w).
Proof.
  intros metadata Hh Ht. eexists.
  now apply (attachMetadataToDownload_plain _ _ _ _ Hh Ht).
Qed.

Lemma formatDate_en_CA date :
  formatDate date (Some "yyyy-m-d") =
  toLocaleDateString date (Some "en-CA") (Some numeric).
Proof. reflexivity. Qed.

Lemma formatDate_en_GB date :
  formatDate date (Some "d-m-yyyy") =
  Regex.replace_first
    [Regex.Digits 1 2; Regex.Lit "/"; Regex.Digits 1 2; Regex.Lit "/";
     Regex.Digits 4 4] "$1-$2-$3"
    (toLocaleDateString date (Some "en-GB") (Some numeric)).
Proof. reflexivity. Qed.

(** The rewriting of [d-m-yyyy] on a date written day/month/year. *)
Lemma slashes_to_hyphens d m y :
  day_month_year d m y = true ->
  Regex.replace_first
    [Regex.Digits 1 2; Regex.Lit "/"; Regex.Digits 1 2; Regex.Lit "/";
     Regex.Digits 4 4] "$1-$2-$3" (d +:+ "/" +:+ m +:+ "/" +:+ y) =
  d +:+ "-" +:+ m +:+ "-" +:+ y.
Proof.
  unfold day_month_year. intros S.
  repeat (apply andb_true_iff in S as [S ?]).
  destruct d as [|d1 [|d2 [|? ?]]]; try discriminate;
    destruct m as [|m1 [|m2 [|? ?]]]; try discriminate;
    destruct y as [|y1 [|y2 [|y3 [|y4 [|? ?]]]]]; try discriminate;
    cbn [Str.all_digits] in *;
    repeat match goal with
           | D : _ && _ = true |- _ => apply andb_true_iff in D as [? ?]
           end;
    unfold Regex.replace_first;
    repeat (simpl;
            repeat match goal with
                   | D : Str.is_digit _ = true |- _ => rewrite D
                   end);
    reflexivity.
Qed.

(** C6 (amended).  For [yyyy-m-d] the date is the en-CA numeric date of
    the host as it stands.  For [d-m-yyyy] it is the en-GB numeric date of
    the host with its two slashes turned into hyphens: day, month, year,
    each with the digits the locale writes (two for day and month in the
    locale data of the browsers, so 5 March 2024 gives 05-03-2024). *)
Theorem formatDate_numeric date d m y :
  toLocaleDateString date (Some "en-GB") (Some numeric) =
  d +:+ "/" +:+ m +:+ "/" +:+ y ->
  day_month_year d m y = true ->
  formatDate date (Some "yyyy-m-d") =
  toLocaleDateString date (Some "en-CA") (Some numeric) /\
  formatDate date (Some "d-m-yyyy") = d +:+ "-" +:+ m +:+ "-" +:+ y.
Proof.
  intros E S. split; [apply formatDate_en_CA |].
  rewrite formatDate_en_GB, E. now apply slashes_to_hyphens.
Qed.

(** C7 (amended).  Given a template: when the authors are missing or an
    empty sequence, every occurrence of [{authorsList}] in the text the chain
    has produced so far gives way to [N/A]; when they are not empty and their
    comma-joined list holds no dollar sign, it gives way to that list.  The
    license is the result, line-trimmed. *)
Theorem generateLicenseContent_authorsList filename metadata w t :
  licenseTemplate metadata = Some t ->
  let text := beforeAuthors filename (now w) metadata (plainText t) in
  (authors metadata = None \/ authors metadata = Some [] ->
   generateLicenseContent filename metadata w =
   (Ok (trimLines (replace_literal "{authorsList}" "N/A" text)), tick w)) /\
  (forall a l,
      authors metadata = Some (a :: l) ->
      Str.mem "$" (Str.join ", " (a :: l)) = false ->
      generateLicenseContent filename metadata w =
      (Ok (trimLines
             (replace_literal "{authorsList}" (Str.join ", " (a :: l)) text)),
       tick w)).
Proof.
  intros Ht text.
  rewrite (generateLicenseContent_run _ _ _ _ Ht), replaceVariables_last.
  fold text. unfold substitute, authorsList_of.
  change (placeholder "authorsList") with "{authorsList}".
  split.
  - intros [-> | ->]; now rewrite RegexFacts.replace_all_literal.
  - intros a l -> Hd. now rewrite RegexFacts.replace_all_literal.
Qed.

Lemma append_not_self (n s : string) : s <> "" -> n +:+ s <> n.
Proof.
  intros Hs E. apply (f_equal String.length) in E.
  rewrite StrFacts.length_app in E. destruct s; [easy | simpl in E; lia].
Qed.

(** C8.  When [downloadFile] triggers a download, the archive behind it
    has exactly two entries: under the name of the file the processed file
    [attachMetadataToDownload] returned, and under that name followed by
    [.license.txt] the text [generateLicenseContent] returned; the
    suggested name is the name of the file followed by [.zip]. *)
Theorem downloadFile_archive file metadata w w' d :
  downloadFile file metadata w = (Ok tt, w') ->
  downloads w' = d :: downloads w ->
  let name := Entry.name file in
  dom (href d) = {[ name; name +:+ ".license.txt" ]} /\
  size (href d) = 2 /\
  (exists attached w1 license w2,
      attachMetadataToDownload (Entry.file file) (Some metadata) w =
      (Ok attached, w1) /\
      generateLicenseContent name metadata w1 = (Ok license, w2) /\
      href d !! name = Some (ZPayload (processedFile attached)) /\
      href d !! (name +:+ ".license.txt") = Some (ZText license)) /\
  download d = name +:+ ".zip".
Proof.
  intros Hrun Hd name.
  assert (Hne : name +:+ ".license.txt" <> name)
    by (now apply append_not_self).
  unfold downloadFile, try_catch, bind in Hrun.
  pose proof (attachMetadataToDownload_keeps (Entry.file file)
                (Some metadata) w) as K1.
  destruct (attachMetadataToDownload _ _ w) as [[attached|e] w1] eqn:Ea;
    simpl in K1.
  - pose proof (generateLicenseContent_keeps (Entry.name file) metadata w1)
      as K2.
    destruct (generateLicenseContent _ _ w1) as [[license|e] w2] eqn:El;
      simpl in K2.
    + unfold click in Hrun. injection Hrun as <-. simpl in Hd.
      injection Hd as <- _. cbn [href download]. unfold zip_file.
      fold name. split; [| split; [| split]].
      * rewrite !dom_insert_L, dom_empty_L, (right_id_L ∅ (∪)).
        apply (comm_L (∪)).
      * rewrite map_size_insert_None, map_size_insert_None, map_size_empty;
          [reflexivity | apply lookup_empty |].
        rewrite lookup_insert_ne by congruence. apply lookup_empty.
      * exists attached, w1, license, w2.
        split; [reflexivity |]. split; [exact El |]. split.
        -- rewrite lookup_insert_ne by assumption.
           apply lookup_insert_eq.
        -- apply lookup_insert_eq.
      * reflexivity.
    + unfold console_error in Hrun. injection Hrun as <-. simpl in Hd.
      rewrite K2, K1 in Hd.
      apply (f_equal (@List.length _)) in Hd. simpl in Hd. lia.
  - unfold console_error in Hrun. injection Hrun as <-. simpl in Hd.
    rewrite K1 in Hd.
    apply (f_equal (@List.length _)) in Hd. simpl in Hd. lia.
Qed.

(** [downloadFile] does trigger a download when the profile carries a
    template and an authors list. *)
Lemma downloadFile_succeeds file metadata w t own :
  licenseTemplate metadata = Some t ->
  authors metadata = Some own ->
  exists d w', downloadFile file metadata w = (Ok tt, w') /\
               downloads w' = d :: downloads w.
Proof.
  intros Ht Ha.
  assert (G : forall name w0, exists text,
               generateLicenseContent name metadata w0 =
               (Ok text, tick w0))
    by (intros; now apply (generateLicenseContent_total _ _ _ t)).
  assert (Hm : licenseTemplate (spread config.defaultMetadata metadata) =
               Some t) by (unfold spread; simpl; now rewrite Ht).
  assert (G' : forall name w0, exists text,
               generateLicenseContent name
                 (spread config.defaultMetadata metadata) w0 =
               (Ok text, tick w0))
    by (intros; now apply (generateLicenseContent_total _ _ _ t)).
  pose proof (attachMetadataToDownload_keeps (Entry.file file)
                (Some metadata) w) as K1.
  assert (A : exists attached w1,
             attachMetadataToDownload (Entry.file file) (Some metadata) w =
             (Ok attached, w1)).
  { unfold attachMetadataToDownload, try_catch, bind, ret, console_error.
    destruct (embedder _) as [h|].
    - destruct (run_handler h _ _ w) as [[b|e] w1].
      + destruct (G' (File.name (Entry.file file)) w1) as [text ->].
        eauto.
      + match goal with
        | |- context [generateLicenseContent ?n ?m ?w0] =>
            destruct (G' n w0) as [text ->]
        end. eauto.
    - destruct (G' (File.name (Entry.file file)) w) as [text ->]. eauto. }
  destruct A as (attached & w1 & Ea). rewrite Ea in K1. simpl in K1.
  destruct (G (Entry.name file) w1) as [text Et].
  unfold downloadFile, try_catch, bind. rewrite Ea, Et.
  eexists _, _. split; [reflexivity |]. simpl. now rewrite K1.
Qed.

(** C9.  Two runs of the renderer on the same file name and metadata, in
    worlds whose clocks show the same date and time, return the same text
    (or throw the same error), whatever else differs between the worlds. *)
Theorem generateLicenseContent_deterministic filename metadata w1 w2 :
  now w1 = now w2 ->
  fst (generateLicenseContent filename metadata w1) =
  fst (generateLicenseContent filename metadata w2).
Proof.
  intros E. destruct (licenseTemplate metadata) as [t|] eqn:Ht.
  - rewrite !(generateLicenseContent_run _ _ _ _ Ht). simpl. now rewrite E.
  - now rewrite !generateLicenseContent_throw.
Qed.


End Claims.

(** ** The program on the sample host *)

Module OnSample.

Import Sample Template.

(** C1 (as stated, refuted).  On [track.mp3] the audio embedder throws,
    and the call returns the file and a license.  With the
    contact line [see {website}] the license reads
    [Contact: see {website}]: the contact is substituted after the website.
    With the contact line [$&] it reads [Contact: {contact}]: the pattern
    stands for the matched placeholder.  Either way a placeholder of a field
    with a default is left in the license. *)
Lemma fallback_leaves_placeholder :
  ~ fallback_as_stated broken_mp3 (Some pointing) world /\
  ~ fallback_as_stated broken_mp3 (Some echoing) world.
Proof.
  split; intros C;
    destruct (C attachAudioMetadata_h
                not_a_view
                (logged "Error reading audio metadata:"
                   not_a_view world)
                eq_refl eq_refl)
      as (attached & w' & license & Ha & _ & Hl & Hn);
    vm_compute in Ha; injection Ha as <- _;
    vm_compute in Hl; injection Hl as <-.
  - specialize (Hn "website" (or_intror (or_introl eq_refl))).
    vm_compute in Hn. discriminate.
  - specialize (Hn "contact" (or_intror (or_intror (or_introl eq_refl)))).
    vm_compute in Hn. discriminate.
Qed.

Lemma attachMetadataToDownload_fallback_witness :
  (embedder (File.name broken_mp3) = Some attachAudioMetadata_h /\
   run_handler attachAudioMetadata_h broken_mp3
     (spread config.defaultMetadata (profile "Contact: {contact}")) world =
   (Throw not_a_view,
    logged "Error reading audio metadata:"
      not_a_view world) /\
   licenseTemplate
     (spread config.defaultMetadata (profile "Contact: {contact}")) =
   Some "Contact: {contact}") /\
  attachMetadataToDownload broken_mp3 (Some (profile "Contact: {contact}"))
    world =
  (Ok {| processedFile := OfFile broken_mp3;
         licenseBlob := text_plain "Contact: Your Contact Info" |},
   tick (logged "Error attaching metadata:"
           not_a_view
           (logged "Error reading audio metadata:"
              not_a_view world))) /\
  (forall n, In n tokens ->
     Str.occurs (placeholder n) "Contact: Your Contact Info" = false).
Proof.
  split; [repeat split |].
  pose (T := attachMetadataToDownload_fallback
               broken_mp3 (Some (profile "Contact: {contact}"))
               attachAudioMetadata_h
               not_a_view
               world _ "Contact: {contact}" eq_refl eq_refl eq_refl).
  exact (conj (proj1 T)
              (proj2 (proj2 T [Txt "Contact: "; Hole "contact"]
                            eq_refl eq_refl eq_refl))).
Defined.

(** C2 (the code departs from the claim).  [track.mp3] holds audio whose
    title is [Old]; the profile asks for the title [New], the artist
    [Ada Lovelace] and the album [Acme Labs].  The embedder throws at its
    call of [parseBuffer] and returns nothing; [attachMetadataToDownload]
    logs the error and hands back the file itself, whose bytes still hold
    the title [Old].  (Where [parseBuffer] does return, the bytes are no
    more rewritten: [attachAudioMetadata_read_back].) *)
Theorem attachAudioMetadata_discards_tags :
  attachAudioMetadata tagged_mp3 retitled world =
  (Throw not_a_view,
   logged "Error reading audio metadata:" not_a_view world) /\
  attachMetadataToDownload tagged_mp3
    (Some SamplePage.retitled_with_template) world =
  (Ok {| processedFile := OfFile tagged_mp3;
         licenseBlob := text_plain "File: track.mp3" |},
   tick (logged "Error attaching metadata:" not_a_view
           (logged "Error reading audio metadata:" not_a_view world))) /\
  payload_data (OfFile tagged_mp3) = Raw (File.content tagged_mp3) /\
  title_of (File.content tagged_mp3) = Some "Old".
Proof. repeat split; reflexivity. Qed.

(** C4 (as stated, refuted).  The file is called [{year}.mp3] and the
    template is [{filename}].  A single pass would leave the name as it is;
    the chain replaces the year inside it. *)
Lemma filename_is_substituted_again :
  fst (generateLicenseContent "{year}.mp3" (profile "{filename}") world) =
  Ok "2024.mp3" /\
  trimLines
    (flatten
       (map (fill_all (values "{year}.mp3" march5 (profile "{filename}")))
            [Hole "filename"])) = "{year}.mp3".
Proof. split; reflexivity. Qed.

Lemma generateLicenseContent_single_pass_witness :
  (licenseTemplate (profile "<p>File: {filename} ({unknown}) {year}</p>") =
   Some "<p>File: {filename} ({unknown}) {year}</p>" /\
   plainText "<p>File: {filename} ({unknown}) {year}</p>" =
   flatten [Txt "File: "; Hole "filename"; Txt " ("; Hole "unknown";
            Txt ") "; Hole "year"; Txt newline] /\
   wf [Txt "File: "; Hole "filename"; Txt " ("; Hole "unknown";
       Txt ") "; Hole "year"; Txt newline] = true /\
   clean_values "track.mp3" (now world)
     (profile "<p>File: {filename} ({unknown}) {year}</p>") = true) /\
  generateLicenseContent "track.mp3"
    (profile "<p>File: {filename} ({unknown}) {year}</p>") world =
  (Ok ("File: track.mp3 ({unknown}) 2024" +:+ newline), tick world).
Proof.
  split; [repeat split |].
  exact (generateLicenseContent_single_pass "track.mp3"
           (profile "<p>File: {filename} ({unknown}) {year}</p>") world
           "<p>File: {filename} ({unknown}) {year}</p>"
           [Txt "File: "; Hole "filename"; Txt " ("; Hole "unknown";
            Txt ") "; Hole "year"; Txt newline]
           eq_refl eq_refl eq_refl eq_refl).
Defined.

(** C5 (the code departs from the claim).  A document stored under the
    name [pdf] has no extension, yet the table is asked for [pdf]: the
    document embedder runs and the processed bytes are the document saved
    again with its new properties, not the bytes of the input. *)
Theorem name_without_extension_is_embedded :
  fileExtension "pdf" = "pdf" /\
  embedder "pdf" = Some attachPDFMetadata_h /\
  fst (attachMetadataToDownload pdf_without_extension
         (Some (profile "File: {filename}")) world) =
  Ok {| processedFile :=
          OfBlob {| blob_data :=
                      Raw (save_document
                             {| doc_pages := [x01];
                                doc_title := "Default Title";
                                doc_author := "";
                                doc_subject := "Your Website Name" |});
                    blob_type := "application/pdf" |};
        licenseBlob := text_plain "File: pdf" |} /\
  save_document
    {| doc_pages := [x01]; doc_title := "Default Title"; doc_author := "";
       doc_subject := "Your Website Name" |} <>
  File.content pdf_without_extension.
Proof. repeat split; try reflexivity. discriminate. Qed.

(** C6 (as stated, refuted).  On 5 March 2024 the format [d-m-yyyy] gives
    [05-03-2024], not [5-3-2024], and the format [m-yyyy-d] gives
    [05/2024-03], which is neither hyphen-separated nor month first. *)
Lemma formatDate_pads_day_and_month :
  formatDate march5 (Some "d-m-yyyy") = "05-03-2024" /\
  formatDate march5 (Some "d-m-yyyy") <> "5-3-2024" /\
  formatDate march5 (Some "m-yyyy-d") = "05/2024-03".
Proof. repeat split; try reflexivity. discriminate. Qed.

Lemma formatDate_numeric_witness :
  (toLocaleDateString march5 (Some "en-GB") (Some numeric) =
   "05" +:+ "/" +:+ "03" +:+ "/" +:+ "2024" /\
   day_month_year "05" "03" "2024" = true) /\
  formatDate march5 (Some "yyyy-m-d") = "2024-03-05" /\
  formatDate march5 (Some "d-m-yyyy") = "05-03-2024".
Proof.
  split; [split; reflexivity |].
  exact (formatDate_numeric march5 "05" "03" "2024" eq_refl eq_refl).
Defined.

(** C7 (as stated, refuted).  The only author is [Big $$ Records]; the
    placeholder gives way to [Big $ Records], not to the joined authors:
    [$$] in a replacement text stands for one dollar sign. *)
Lemma authorsList_reads_dollar_patterns :
  Str.join ", " ["Big $$ Records"] = "Big $$ Records" /\
  fst (generateLicenseContent "track.mp3"
         (signed ["Big $$ Records"] "Authors: {authorsList}") world) =
  Ok "Authors: Big $ Records" /\
  fst (generateLicenseContent "track.mp3"
         (signed ["Big $$ Records"] "Authors: {authorsList}") world) <>
  Ok "Authors: Big $$ Records".
Proof. repeat split; try reflexivity. discriminate. Qed.

Lemma generateLicenseContent_authorsList_witness :
  (licenseTemplate (signed [] "Authors: {authorsList}") =
   Some "Authors: {authorsList}" /\
   authors (signed [] "Authors: {authorsList}") = Some [] /\
   authors (signed ["Ada Lovelace"; "Alan Turing"] "Authors: {authorsList}")
   = Some ["Ada Lovelace"; "Alan Turing"] /\
   Str.mem "$" (Str.join ", " ["Ada Lovelace"; "Alan Turing"]) = false) /\
  generateLicenseContent "track.mp3" (signed [] "Authors: {authorsList}")
    world = (Ok "Authors: N/A", tick world) /\
  generateLicenseContent "track.mp3"
    (signed ["Ada Lovelace"; "Alan Turing"] "Authors: {authorsList}") world =
  (Ok "Authors: Ada Lovelace, Alan Turing", tick world).
Proof.
  split; [repeat split |]. split.
  - exact (proj1 (generateLicenseContent_authorsList "track.mp3"
                    (signed [] "Authors: {authorsList}") world
                    "Authors: {authorsList}" eq_refl)
                 (or_intror eq_refl)).
  - exact (proj2 (generateLicenseContent_authorsList "track.mp3"
                    (signed ["Ada Lovelace"; "Alan Turing"]
                            "Authors: {authorsList}") world
                    "Authors: {authorsList}" eq_refl)
                 "Ada Lovelace" ["Alan Turing"] eq_refl eq_refl).
Defined.

Lemma generateLicenseContent_deterministic_witness :
  now world = now later /\
  fst (generateLicenseContent "track.mp3" (profile "{downloadDate}") world) =
  fst (generateLicenseContent "track.mp3" (profile "{downloadDate}") later).
Proof.
  split; [reflexivity |].
  exact (generateLicenseContent_deterministic "track.mp3"
           (profile "{downloadDate}") world later eq_refl).
Defined.



Lemma downloadFile_archive_witness :
  (downloadFile (entry tagged_mp3) scenario world =
   (Ok tt, {| clock := clock world; ticks := 2;
              console := [("Error attaching metadata:", not_a_view);
                          ("Error reading audio metadata:", not_a_view)];
              downloads := [packaged] |}) /\
   [packaged] = packaged :: downloads world) /\
  dom (href packaged) = {[ "track.mp3"; "track.mp3.license.txt" ]} /\
  size (href packaged) = 2 /\
  download packaged = "track.mp3.zip".
Proof.
  split; [split; reflexivity |].
  pose (P := downloadFile_archive (entry tagged_mp3) scenario world
               {| clock := clock world; ticks := 2;
                  console := [("Error attaching metadata:", not_a_view);
                              ("Error reading audio metadata:", not_a_view)];
                  downloads := [packaged] |} packaged eq_refl eq_refl).
  exact (conj (proj1 P)
              (conj (proj1 (proj2 P)) (proj2 (proj2 (proj2 P))))).
Defined.

(** The archive scenario of the specification, over the template the page
    starts with: the license names the author under [Authors:], and no
    placeholder is left. *)
Example license_of_the_scenario :
  exists license,
    fst (generateLicenseContent "track.mp3" acme world) = Ok license /\
    Str.starts_with
      ("License Agreement" +:+ newline +:+ newline +:+
       "File: track.mp3" +:+ newline +:+
       "Download Date: 2024-03-05" +:+ newline) license = true /\
    Str.occurs
      ("Authors:" +:+ newline +:+ "Ada Lovelace" +:+ newline) license =
    true /\
    Str.occurs "licensed under the Acme Labs Copyright License" license =
    true /\
    forallb (fun n => negb (Str.occurs (placeholder n) license)) tokens =
    true.
Proof. eexists. repeat split; vm_compute; reflexivity. Qed.

(** The unknown-extension scenario: [photo.heic] passes through. *)
Example photo_heic_passes_through :
  embedder "photo.heic" = None /\
  fst (attachMetadataToDownload
         {| File.name := "photo.heic"; File.type := "image/heic";
            File.content := [x01; x02] |}
         (Some (profile "File: {filename}")) world) =
  Ok {| processedFile :=
          OfFile {| File.name := "photo.heic"; File.type := "image/heic";
                    File.content := [x01; x02] |};
        licenseBlob := text_plain "File: photo.heic" |}.
Proof. split; reflexivity. Qed.

End OnSample.

(** * Beyond the claims: the rest of the page *)

(** ** The reducer and the hook *)

Section HookFacts.

Variable blob_url : nat -> string.

Lemma filter_twice {A} (f : A -> bool) l :
  List.filter f (List.filter f l) = List.filter f l.
Proof.
  induction l as [|x l IH]; [reflexivity |]. simpl.
  destruct (f x) eqn:E; [| exact IH]. simpl. now rewrite E, IH.
Qed.

Lemma filter_all {A} (f : A -> bool) l :
  (forall x, In x l -> f x = true) -> List.filter f l = l.
Proof.
  induction l as [|x l IH]; intros Hl; [reflexivity |]. simpl.
  rewrite (Hl x) by now left. f_equal. apply IH. intros y Hy.
  apply Hl. now right.
Qed.

(** X1.  [REMOVE_FILE] removes every entry of the given name, duplicates
    included, and no other: the entries left are those of the other names.
    Removing the name again changes nothing, and removing a name no entry
    has leaves the state as it is. *)
Theorem reducer_REMOVE_FILE state0 name :
  let state1 := reducer state0 (REMOVE_FILE name) in
  (forall file,
      In file (files state1) <->
      In file (files state0) /\ Entry.name file <> name) /\
  reducer state1 (REMOVE_FILE name) = state1 /\
  ((forall file, In file (files state0) -> Entry.name file <> name) ->
   state1 = state0).
Proof.
  intros state1. split; [| split].
  - intros file. unfold state1. cbn [reducer files].
    rewrite filter_In, negb_true_iff, String.eqb_neq. reflexivity.
  - unfold state1. cbn [reducer files loading error theme].
    now rewrite filter_twice.
  - intros Hn. unfold state1. destruct state0 as [fs l e t].
    cbn [reducer files loading error theme] in *. f_equal.
    apply filter_all. intros file Hf.
    apply negb_true_iff, String.eqb_neq. now apply Hn.
Qed.

(** Whatever holds of the page at the start and is kept by every event
    holds after every sequence of events. *)
Lemma after_ind (P : Page -> Prop) :
  P initialPage ->
  (forall p ev, P p -> P (handle blob_url p ev)) ->
  forall evs, P (after blob_url evs).
Proof.
  intros H0 Hs evs. unfold after. generalize dependent initialPage.
  induction evs as [|ev evs IH]; intros p Hp; [exact Hp |].
  simpl. apply IH. now apply Hs.
Qed.

Lemma newFiles_state fs p : state (snd (newFiles blob_url fs p)) = state p.
Proof.
  revert p. induction fs as [|f fs IH]; intros p; [reflexivity |].
  simpl. specialize (IH (snd (createObjectURL blob_url p))).
  destruct (newFiles blob_url fs _) as [entries p2]. simpl in *.
  now rewrite IH.
Qed.

Lemma newFiles_files fs p :
  map Entry.file (fst (newFiles blob_url fs p)) = fs.
Proof.
  revert p. induction fs as [|f fs IH]; intros p; [reflexivity |].
  simpl. specialize (IH (snd (createObjectURL blob_url p))).
  destruct (newFiles blob_url fs _) as [entries p2]. simpl in *.
  now rewrite IH.
Qed.

Lemma newFiles_faithful fs p :
  Forall faithful (fst (newFiles blob_url fs p)).
Proof.
  revert p. induction fs as [|f fs IH]; intros p; [constructor |].
  simpl. specialize (IH (snd (createObjectURL blob_url p))).
  destruct (newFiles blob_url fs _) as [entries p2]. simpl in *.
  constructor; [now repeat split | exact IH].
Qed.

Lemma newFiles_minted fs p :
  minted (snd (newFiles blob_url fs p)) = minted p + List.length fs.
Proof.
  revert p. induction fs as [|f fs IH]; intros p; [simpl; lia |].
  simpl. specialize (IH (snd (createObjectURL blob_url p))).
  destruct (newFiles blob_url fs _) as [entries p2]. simpl in *. lia.
Qed.

Lemma newFiles_keeps_urls fs p :
  objectURLs p ⊆ objectURLs (snd (newFiles blob_url fs p)).
Proof.
  revert p. induction fs as [|f fs IH]; intros p; [reflexivity |].
  simpl. specialize (IH (snd (createObjectURL blob_url p))).
  destruct (newFiles blob_url fs _) as [entries p2]. simpl in *.
  etransitivity; [| exact IH]. apply union_subseteq_r.
Qed.

Lemma newFiles_urls fs p :
  Forall (fun file =>
            Entry.previewUrl file ∈ objectURLs (snd (newFiles blob_url fs p)))
         (fst (newFiles blob_url fs p)).
Proof.
  revert p. induction fs as [|f fs IH]; intros p; [constructor |].
  simpl. specialize (IH (snd (createObjectURL blob_url p))).
  pose proof (newFiles_keeps_urls fs (snd (createObjectURL blob_url p)))
    as K.
  destruct (newFiles blob_url fs _) as [entries p2]. simpl in *.
  constructor; [| exact IH].
  apply K. apply elem_of_union_l. now apply elem_of_singleton.
Qed.

Lemma newFiles_numbered fs p :
  Forall (fun file =>
            exists n, minted p <= n < minted p + List.length fs /\
                      Entry.previewUrl file = blob_url n)
         (fst (newFiles blob_url fs p)).
Proof.
  revert p. induction fs as [|f fs IH]; intros p; [constructor |].
  simpl. specialize (IH (snd (createObjectURL blob_url p))).
  destruct (newFiles blob_url fs _) as [entries p2]. simpl in *.
  constructor.
  - exists (minted p). split; [lia | reflexivity].
  - eapply Forall_impl; [exact IH |]. intros file (n & Hn & E).
    exists n. split; [lia | exact E].
Qed.

Lemma handleFileUpload_files fs p :
  files (state (handleFileUpload blob_url fs p)) =
  files (state p) ++ fst (newFiles blob_url fs p).
Proof.
  unfold handleFileUpload.
  pose proof (newFiles_state fs p) as S.
  destruct (newFiles blob_url fs p) as [entries p1]. simpl in *.
  now rewrite S.
Qed.

Lemma handleFileUpload_urls fs p :
  objectURLs (handleFileUpload blob_url fs p) =
  objectURLs (snd (newFiles blob_url fs p)).
Proof.
  unfold handleFileUpload.
  now destruct (newFiles blob_url fs p) as [entries p1].
Qed.

Lemma revoke_all_state l q :
  state (fold_left
           (fun q file => revokeObjectURL (Entry.previewUrl file) q) l q) =
  state q.
Proof.
  revert q. induction l as [|x l IH]; intros q; [reflexivity |].
  simpl. now rewrite IH.
Qed.

Lemma revoke_all_minted l q :
  minted (fold_left
            (fun q file => revokeObjectURL (Entry.previewUrl file) q) l q) =
  minted q.
Proof.
  revert q. induction l as [|x l IH]; intros q; [reflexivity |].
  simpl. now rewrite IH.
Qed.

Lemma revoke_all_urls l q :
  objectURLs
    (fold_left (fun q file => revokeObjectURL (Entry.previewUrl file) q) l q)
  = objectURLs q ∖ list_to_set (map Entry.previewUrl l).
Proof.
  revert q. induction l as [|x l IH]; intros q; simpl.
  - apply leibniz_equiv. intros u.
    rewrite elem_of_difference, elem_of_empty. tauto.
  - rewrite IH. simpl. apply leibniz_equiv. intros u.
    rewrite !elem_of_difference, elem_of_union. tauto.
Qed.

(** X2.  After any sequence of uploads, removals, clearings and theme
    changes, every entry of the file list carries the name, the type and
    the size of the file it holds. *)
Theorem entries_describe_their_files evs file :
  In file (files (state (after blob_url evs))) ->
  Entry.name file = File.name (Entry.file file) /\
  Entry.type file = File.type (Entry.file file) /\
  Entry.size file = List.length (File.content (Entry.file file)).
Proof.
  revert file. change (forall file,
    In file (files (state (after blob_url evs))) -> faithful file).
  apply (after_ind (fun p => forall file,
                        In file (files (state p)) -> faithful file)).
  - intros file [].
  - intros p [fs | name | | t] Hp file; cbn [handle].
    + rewrite handleFileUpload_files, in_app_iff. intros [Hf | Hf].
      * now apply Hp.
      * pose proof (newFiles_faithful fs p) as F.
        rewrite Forall_forall in F. apply F.
        now apply list_elem_of_In.
    + unfold removeFile. cbn [dispatch state reducer files].
      rewrite filter_In. intros [Hf _]. now apply Hp.
    + unfold clearFiles. rewrite revoke_all_state. intros [].
    + cbn. apply Hp.
Qed.

(** X3.  The hook never dispatches [SET_LOADING] or [SET_ERROR]: after any
    sequence of its events [loading] is still [false] and [error] still
    [null]. *)
Theorem loading_and_error_never_change evs :
  loading (state (after blob_url evs)) = false /\
  error (state (after blob_url evs)) = None.
Proof.
  apply (after_ind (fun p => loading (state p) = false /\
                             error (state p) = None)).
  - now split.
  - intros p [fs | name | | t] Hp; cbn [handle].
    + unfold handleFileUpload.
      pose proof (newFiles_state fs p) as S.
      destruct (newFiles blob_url fs p) as [entries p1]. simpl in *.
      now rewrite S.
    + exact Hp.
    + unfold clearFiles. rewrite revoke_all_state. exact Hp.
    + exact Hp.
Qed.

Lemma listed_urls_live evs file :
  In file (files (state (after blob_url evs))) ->
  Entry.previewUrl file ∈ objectURLs (after blob_url evs).
Proof.
  revert file.
  apply (after_ind (fun p => forall file,
                        In file (files (state p)) ->
                        Entry.previewUrl file ∈ objectURLs p)).
  - intros file [].
  - intros p [fs | name | | t] Hp file; cbn [handle].
    + rewrite handleFileUpload_files, handleFileUpload_urls, in_app_iff.
      intros [Hf | Hf].
      * now apply (newFiles_keeps_urls fs p), Hp.
      * pose proof (newFiles_urls fs p) as U.
        rewrite Forall_forall in U. apply U.
        now apply list_elem_of_In.
    + unfold removeFile. cbn [dispatch state reducer files objectURLs].
      rewrite filter_In. intros [Hf _]. now apply Hp.
    + unfold clearFiles. rewrite revoke_all_state. intros [].
    + cbn. apply Hp.
Qed.

(** X4.  The preview URL of every entry of the file list is registered
    with the browser, and it is one of the URLs the browser created for the
    hook: no event revokes the URL of an entry it leaves in the list. *)
Theorem preview_urls_are_live evs file :
  In file (files (state (after blob_url evs))) ->
  Entry.previewUrl file ∈ objectURLs (after blob_url evs) /\
  exists n, n < minted (after blob_url evs) /\
            Entry.previewUrl file = blob_url n.
Proof.
  intros Hf. split; [now apply listed_urls_live |].
  revert file Hf.
  apply (after_ind (fun p => forall file,
                        In file (files (state p)) ->
                        exists n, n < minted p /\
                                  Entry.previewUrl file = blob_url n)).
  - intros file [].
  - intros p [fs | name | | t] Hp file; cbn [handle].
    + rewrite handleFileUpload_files, in_app_iff.
      unfold handleFileUpload.
      pose proof (newFiles_minted fs p) as M.
      pose proof (newFiles_numbered fs p) as N.
      destruct (newFiles blob_url fs p) as [entries q]. simpl in *.
      intros [Hf | Hf].
      * destruct (Hp _ Hf) as (n & Hn & E). exists n. split; [lia | easy].
      * rewrite Forall_forall in N. apply list_elem_of_In in Hf.
        destruct (N _ Hf) as (n & Hn & E). exists n. split; [lia | easy].
    + unfold removeFile. cbn [dispatch state reducer files minted].
      rewrite filter_In. intros [Hf _]. now apply Hp.
    + unfold clearFiles. rewrite revoke_all_state. intros [].
    + cbn. apply Hp.
Qed.

(** X5.  [removeFile] takes the entries of the name off the list but
    revokes nothing: the preview URL of a removed entry stays registered
    with the browser. *)
Theorem removeFile_leaves_the_url evs file :
  In file (files (state (after blob_url evs))) ->
  let p := removeFile (Entry.name file) (after blob_url evs) in
  ~ In file (files (state p)) /\
  Entry.previewUrl file ∈ objectURLs p.
Proof.
  intros Hf p. split.
  - unfold p, removeFile. cbn [dispatch state reducer files].
    rewrite filter_In, negb_true_iff, String.eqb_neq. tauto.
  - unfold p, removeFile. cbn [dispatch objectURLs].
    now apply listed_urls_live.
Qed.

(** X6.  [clearFiles] empties the file list and revokes the preview URL of
    every file the list held, and no other URL. *)
Theorem clearFiles_revokes_the_listed_urls p :
  files (state (clearFiles p)) = [] /\
  objectURLs (clearFiles p) =
  objectURLs p ∖ list_to_set (map Entry.previewUrl (files (state p))) /\
  minted (clearFiles p) = minted p.
Proof.
  unfold clearFiles. split; [| split].
  - now rewrite revoke_all_state.
  - now rewrite revoke_all_urls.
  - now rewrite revoke_all_minted.
Qed.

(** X7.  [handleFileUpload] keeps the entries the list had and appends one
    entry per uploaded file, in the order of the files; it creates one
    object URL per file and revokes none. *)
Theorem handleFileUpload_appends fs p :
  let p1 := handleFileUpload blob_url fs p in
  map Entry.file (files (state p1)) =
  map Entry.file (files (state p)) ++ fs /\
  firstn (List.length (files (state p))) (files (state p1)) =
  files (state p) /\
  minted p1 = minted p + List.length fs /\
  objectURLs p ⊆ objectURLs p1.
Proof.
  intros p1. unfold p1. rewrite handleFileUpload_files.
  split; [| split; [| split]].
  - now rewrite map_app, newFiles_files.
  - rewrite firstn_app, Nat.sub_diag, firstn_all. simpl.
    apply app_nil_r.
  - unfold handleFileUpload.
    pose proof (newFiles_minted fs p) as M.
    now destruct (newFiles blob_url fs p) as [entries q].
  - rewrite handleFileUpload_urls. apply newFiles_keeps_urls.
Qed.

End HookFacts.

(** ** Splitting, joining and trimming *)

Module SplitFacts.

Lemma split_free c x : Str.mem c x = false -> Str.split c x = [x].
Proof.
  induction x as [|a x IH]; intros Hx; [reflexivity |].
  simpl in Hx. apply orb_false_iff in Hx as [Ha Hx].
  simpl. now rewrite Ha, IH.
Qed.

Lemma split_sep c x r :
  Str.mem c x = false ->
  Str.split c (x +:+ String c r) = x :: Str.split c r.
Proof.
  induction x as [|a x IH]; intros Hx.
  - simpl. now rewrite Ascii.eqb_refl.
  - simpl in Hx. apply orb_false_iff in Hx as [Ha Hx].
    simpl. now rewrite Ha, IH.
Qed.

(** No part of a split holds the separator. *)
Lemma split_parts_free c s :
  Forall (fun x => Str.mem c x = false) (Str.split c s).
Proof.
  induction s as [|a s IH]; [now repeat constructor |]. simpl.
  destruct (Ascii.eqb a c) eqn:E; [now constructor |].
  destruct (Str.split c s) as [|l ls].
  { constructor; [simpl; now rewrite E | constructor]. }
  inversion IH as [|? ? Hl Hls]; subst.
  constructor; [| assumption]. simpl. now rewrite E, Hl.
Qed.

(** Splitting what was joined gives the parts back, when no part holds
    the separator. *)
Lemma split_join c l :
  l <> [] -> Forall (fun x => Str.mem c x = false) l ->
  Str.split c (Str.join (String c "") l) = l.
Proof.
  induction l as [|x l IH]; [easy |]. intros _ Hl.
  inversion Hl as [|? ? Hx Hr]; subst.
  destruct l as [|y l]; [now apply split_free |].
  rewrite TrimFacts.join_cons.
  change (x +:+ String c "" +:+ Str.join (String c "") (y :: l))
    with (x +:+ String c (Str.join (String c "") (y :: l))).
  rewrite split_sep by assumption. f_equal. now apply IH.
Qed.

Lemma trimStart_suffix s : exists z, s = z +:+ Str.trimStart s.
Proof.
  induction s as [|c s [z IH]]; [now exists "" |].
  cbn [Str.trimStart]. destruct (Str.is_space c).
  - exists (String c z). simpl. now rewrite <- IH.
  - now exists "".
Qed.

(** Trimming brings in no character. *)
Lemma mem_trim c s : Str.mem c s = false -> Str.mem c (Str.trim s) = false.
Proof.
  intros Hs. unfold Str.trim.
  destruct (trimStart_suffix s) as [z Hz].
  destruct (TrimFacts.trimEnd_prefix (Str.trimStart s)) as [z' Hz'].
  rewrite Hz, StrFacts.mem_app in Hs. apply orb_false_iff in Hs as [_ Hs].
  rewrite Hz', StrFacts.mem_app in Hs. now apply orb_false_iff in Hs as [Hs _].
Qed.

Lemma trimStart_first s c u :
  Str.trimStart s = String c u -> Str.is_space c = false.
Proof.
  induction s as [|a s IH]; [discriminate |]. cbn [Str.trimStart].
  destruct (Str.is_space a) eqn:E; [exact IH |].
  intros H. injection H as <- _. exact E.
Qed.

Lemma trimEnd_first c s :
  Str.is_space c = false -> exists t, Str.trimEnd (String c s) = String c t.
Proof.
  intros Hc. cbn [Str.trimEnd]. rewrite Hc.
  destruct (Str.trimEnd s); eauto.
Qed.

Lemma trimEnd_twice s : Str.trimEnd (Str.trimEnd s) = Str.trimEnd s.
Proof.
  induction s as [|c s IH]; [reflexivity |]. cbn [Str.trimEnd].
  destruct (Str.trimEnd s) as [|y t] eqn:E.
  - destruct (Str.is_space c) eqn:S; [reflexivity |].
    cbn [Str.trimEnd]. now rewrite S.
  - change (Str.trimEnd (String c (String y t)))
      with (match Str.trimEnd (String y t) with
            | "" => if Str.is_space c then "" else String c ""
            | u => String c u
            end).
    now rewrite IH.
Qed.

(** Trimming twice is trimming once. *)
Lemma trim_twice s : Str.trim (Str.trim s) = Str.trim s.
Proof.
  unfold Str.trim. destruct (Str.trimStart s) as [|c u] eqn:E;
    [reflexivity |].
  pose proof (trimStart_first _ _ _ E) as Hc.
  destruct (trimEnd_first c u Hc) as [t Ht].
  rewrite Ht. cbn [Str.trimStart]. rewrite Hc, <- Ht.
  apply trimEnd_twice.
Qed.

Lemma trim_after_blank s : Str.trim (String " " s) = Str.trim s.
Proof. reflexivity. Qed.

(** Splitting at the commas what was joined with a comma and a blank. *)
Lemma split_comma_join l :
  Forall (fun x => Str.mem "," x = false) l ->
  Str.split "," (Str.join ", " l) =
  match l with
  | [] => [""]
  | x :: rest => x :: map (String " ") rest
  end.
Proof.
  induction l as [|x l IH]; [reflexivity |]. intros Hl.
  inversion Hl as [|? ? Hx Hr]; subst.
  destruct l as [|y l]; [now apply split_free |].
  rewrite TrimFacts.join_cons.
  change (x +:+ ", " +:+ Str.join ", " (y :: l))
    with (x +:+ String "," (String " " (Str.join ", " (y :: l)))).
  rewrite split_sep by assumption. f_equal.
  cbn [Str.split]. change (Ascii.eqb " " ",") with false. cbv iota.
  now rewrite (IH Hr).
Qed.

End SplitFacts.

(** ** The authors field and the last line of the renderer *)

(** X8.  Once the authors field has been edited the license never falls
    back to [N/A]: the placeholder gives way to the joined authors of the
    field, which for an emptied field is the empty text. *)
Theorem edited_authors_are_not_NA value metadata :
  parseAuthors value <> [] /\
  authors (edit metadata (EditAuthors value)) = Some (parseAuthors value) /\
  authorsList_of (edit metadata (EditAuthors value)) =
  showAuthors (parseAuthors value) /\
  authorsList_of (edit metadata (EditAuthors "")) = "".
Proof.
  assert (N : parseAuthors value <> []).
  { unfold parseAuthors. pose proof (TrimFacts.split_not_nil "," value).
    now destruct (Str.split "," value). }
  split; [exact N |]. split; [reflexivity |]. split; [| reflexivity].
  unfold authorsList_of, edit, spread. cbn [authors].
  now destruct (parseAuthors value).
Qed.

(** X9.  The authors the field holds are in normal form: each is trimmed
    and without comma, there is at least one, and reading back the text the
    field shows for them gives the same authors. *)
Theorem authors_field_round_trip value :
  let own := parseAuthors value in
  Forall (fun a => Str.trim a = a /\ Str.mem "," a = false) own /\
  parseAuthors (showAuthors own) = own.
Proof.
  intros own.
  assert (F : Forall (fun a => Str.trim a = a /\ Str.mem "," a = false) own).
  { unfold own, parseAuthors. apply Forall_map.
    eapply Forall_impl; [apply (SplitFacts.split_parts_free "," value) |].
    intros x Hx. simpl. split; [apply SplitFacts.trim_twice |].
    now apply SplitFacts.mem_trim. }
  split; [exact F |].
  unfold parseAuthors at 1. unfold showAuthors.
  rewrite SplitFacts.split_comma_join
    by (eapply Forall_impl; [exact F |]; now intros x [_ Hx]).
  destruct own as [|x rest] eqn:E.
  - exfalso. revert E. unfold own, parseAuthors.
    pose proof (TrimFacts.split_not_nil "," value).
    now destruct (Str.split "," value).
  - inversion F as [|? ? [Hx _] Hr]; subst. cbn [map]. rewrite Hx. f_equal.
    rewrite map_map. clear -Hr.
    induction rest as [|y rest IH]; [reflexivity |].
    inversion Hr as [|? ? [Hy _] Hr']; subst. cbn [map].
    rewrite SplitFacts.trim_after_blank, Hy. f_equal. now apply IH.
Qed.

(** X16.  The last line of the renderer normalises: in its result every
    line is trimmed, there are as many lines as before, and applying it
    again changes nothing. *)
Theorem trimLines_normalises text :
  Forall (fun line => Str.trim line = line)
         (Str.split LF (trimLines text)) /\
  List.length (Str.split LF (trimLines text)) =
  List.length (Str.split LF text) /\
  trimLines (trimLines text) = trimLines text.
Proof.
  assert (S : Str.split LF (trimLines text) =
              map Str.trim (Str.split LF text)).
  { unfold trimLines, newline. apply SplitFacts.split_join.
    - pose proof (TrimFacts.split_not_nil LF text).
      now destruct (Str.split LF text).
    - apply Forall_map.
      eapply Forall_impl; [apply (SplitFacts.split_parts_free LF text) |].
      intros x Hx. simpl. now apply SplitFacts.mem_trim. }
  split; [| split].
  - rewrite S. apply Forall_map, Forall_forall. intros x _. simpl.
    apply SplitFacts.trim_twice.
  - rewrite S. apply length_map.
  - unfold trimLines at 1. rewrite S, map_map. unfold trimLines.
    f_equal. apply map_ext. intros x. apply SplitFacts.trim_twice.
Qed.

(** ** The pipeline beyond the claims *)

Section PipelineFacts.

Context `{Host}.

Lemma spread_template metadata :
  licenseTemplate (spread config.defaultMetadata metadata) =
  licenseTemplate metadata.
Proof. unfold spread. simpl. now destruct (licenseTemplate metadata). Qed.

(** With a template, [attachMetadataToDownload] returns, and what it
    returns as processed file is the file or the blob of its embedder. *)
Lemma attach_with_template file custom w t :
  let metadata :=
    spread config.defaultMetadata
      (match custom with Some c => c | None => emptyMetadata end) in
  licenseTemplate metadata = Some t ->
  exists attached w',
    attachMetadataToDownload file custom w = (Ok attached, w') /\
    (processedFile attached = OfFile file \/
     exists h b w1,
       embedder (File.name file) = Some h /\
       run_handler h file metadata w = (Ok b, w1) /\
       processedFile attached = OfBlob b).
Proof.
  intros metadata Ht.
  assert (G : forall w0, exists text,
               generateLicenseContent (File.name file) metadata w0 =
               (Ok text, tick w0))
    by (intros; now apply (generateLicenseContent_total _ _ _ t)).
  unfold attachMetadataToDownload, try_catch, bind, ret, console_error.
  fold metadata. destruct (embedder (File.name file)) as [h|] eqn:E.
  - destruct (run_handler h file metadata w) as [[b|e] w1] eqn:R.
    + destruct (G w1) as [text ->]. eexists _, _. split; [reflexivity |].
      right. now exists h, b, w1.
    + match goal with
      | |- context [generateLicenseContent ?n ?m ?w0] =>
          destruct (G w0) as [text ->]
      end.
      eexists _, _. split; [reflexivity |]. now left.
  - destruct (G w) as [text ->]. eexists _, _. split; [reflexivity |].
    now left.
Qed.

(** Without one it throws. *)
Lemma attach_without_template file custom w :
  licenseTemplate
    (spread config.defaultMetadata
       (match custom with Some c => c | None => emptyMetadata end)) = None ->
  exists w',
    attachMetadataToDownload file custom w =
    (Throw (TypeError "metadata.licenseTemplate is undefined"), w').
Proof.
  intros Ht.
  assert (T : forall w0,
             generateLicenseContent (File.name file)
               (spread config.defaultMetadata
                  (match custom with Some c => c | None => emptyMetadata end))
               w0 =
             (Throw (TypeError "metadata.licenseTemplate is undefined"),
              tick w0))
    by (intros w0; now apply generateLicenseContent_throw).
  unfold attachMetadataToDownload, try_catch, bind, ret, console_error.
  destruct (embedder (File.name file)) as [h|].
  - destruct (run_handler h file _ w) as [[b|e] w1]; rewrite !T; eauto.
  - rewrite !T. eauto.
Qed.

(** X12.  [attachMetadataToDownload] throws exactly when the metadata,
    merged with the defaults, has no license template: no failure of an
    embedder, whatever the file, makes it throw. *)
Theorem attachMetadataToDownload_throws_iff file custom w :
  (exists e w', attachMetadataToDownload file custom w = (Throw e, w')) <->
  licenseTemplate
    (spread config.defaultMetadata
       (match custom with Some c => c | None => emptyMetadata end)) = None.
Proof.
  split.
  - intros (e & w' & E).
    destruct (licenseTemplate _) as [t|] eqn:Ht; [| reflexivity].
    destruct (attach_with_template file custom w t Ht)
      as (attached & w1 & E1 & _).
    congruence.
  - intros Ht. destruct (attach_without_template file custom w Ht) as [w' E].
    eauto.
Qed.



Lemma merged_values metadata :
  let merged := spread config.defaultMetadata metadata in
  or_else (institution merged) (default_of institution) =
  or_else (institution metadata) (default_of institution) /\
  or_else (website merged) (default_of website) =
  or_else (website metadata) (default_of website) /\
  or_else (contact merged) (default_of contact) =
  or_else (contact metadata) (default_of contact) /\
  authorsList_of merged = authorsList_of metadata.
Proof.
  unfold spread, authorsList_of. simpl.
  destruct (institution metadata) as [[|? ?]|];
    destruct (website metadata) as [[|? ?]|];
    destruct (contact metadata) as [[|? ?]|];
    destruct (authors metadata) as [[|? ?]|]; now repeat split.
Qed.

(** X14.  Merging the profile with the defaults does not change the
    license: the renderer's own fallbacks give the placeholders the values
    the merge would. *)
Theorem generateLicenseContent_ignores_the_merge filename metadata w :
  generateLicenseContent filename
    (spread config.defaultMetadata metadata) w =
  generateLicenseContent filename metadata w.
Proof.
  assert (R : forall date text,
             replaceVariables filename
               (formatDate date (dateFormat metadata)) date
               (spread config.defaultMetadata metadata) text =
             replaceVariables filename
               (formatDate date (dateFormat metadata)) date metadata text).
  { intros date text.
    destruct (merged_values metadata) as (I & W & C & A).
    unfold replaceVariables. now rewrite I, W, C, A. }
  assert (D : dateFormat (spread config.defaultMetadata metadata) =
              dateFormat metadata)
    by (unfold spread; simpl; now destruct (dateFormat metadata)).
  destruct (licenseTemplate metadata) as [t|] eqn:Ht.
  - rewrite (generateLicenseContent_run _ _ _ t)
      by now rewrite spread_template.
    rewrite (generateLicenseContent_run _ _ _ _ Ht). now rewrite D, R.
  - rewrite !generateLicenseContent_throw;
      [reflexivity | assumption | now rewrite spread_template].
Qed.

Lemma slash_is_no_digit c :
  Str.is_digit c = true -> Ascii.eqb "/" c = false.
Proof.
  intros D. rewrite Ascii.eqb_sym. now apply (StrFacts.digit_not "/" c).
Qed.

Lemma formatDate_month_first date :
  formatDate date (Some "m-yyyy-d") =
  Regex.replace_first
    [Regex.Digits 1 2; Regex.Lit "/"; Regex.Digits 4 4] "$2-$1"
    (toLocaleDateString date (Some "en-GB") (Some numeric)).
Proof. reflexivity. Qed.

(** X15.  For [m-yyyy-d], on an en-GB date written day/month/year, the
    rewrite takes the month and the year only: the result is the day, a
    slash, the year, a hyphen and the month. *)
Theorem formatDate_month_year date d m y :
  toLocaleDateString date (Some "en-GB") (Some numeric) =
  d +:+ "/" +:+ m +:+ "/" +:+ y ->
  day_month_year d m y = true ->
  formatDate date (Some "m-yyyy-d") = d +:+ "/" +:+ y +:+ "-" +:+ m.
Proof.
  intros E S. rewrite formatDate_month_first, E. clear E.
  unfold day_month_year in S.
  repeat (apply andb_true_iff in S as [S ?]).
  destruct d as [|d1 [|d2 [|? ?]]]; try discriminate;
    destruct m as [|m1 [|m2 [|? ?]]]; try discriminate;
    destruct y as [|y1 [|y2 [|y3 [|y4 [|? ?]]]]]; try discriminate;
    cbn [Str.all_digits] in *;
    repeat match goal with
           | D : _ && _ = true |- _ => apply andb_true_iff in D as [? ?]
           end;
    repeat match goal with
           | D : Str.is_digit ?c = true |- _ =>
               lazymatch goal with
               | _ : Ascii.eqb "/" c = false |- _ => fail
               | _ => pose proof (slash_is_no_digit c D)
               end
           end;
    unfold Regex.replace_first;
    repeat (simpl;
            repeat match goal with
                   | D : Str.is_digit _ = true |- _ => rewrite D
                   | D : Ascii.eqb "/" _ = false |- _ => rewrite D
                   end);
    reflexivity.
Qed.

(** A text without occurrence of the pattern passes a global replace
    unchanged. *)
Lemma replace_all_absent c t v s :
  Str.occurs (String c t) s = false ->
  forall b, Regex.replace_scan (Regex.lit (String c t)) v b s 0 = s.
Proof.
  induction s as [|x s IH]; intros Hs b; [reflexivity |].
  cbn [Str.occurs] in Hs. apply orb_false_iff in Hs as [Hx Hs].
  rewrite RegexFacts.scan_miss by assumption. f_equal. now apply IH.
Qed.

Lemma substitute_absent n v text :
  Str.occurs (placeholder n) text = false -> substitute n v text = text.
Proof. intros Hn. now apply (replace_all_absent "{" (n +:+ "}")). Qed.

(** X17.  A template whose plain text holds none of the seven
    placeholders is rendered as that text, line-trimmed, whatever the file
    name, the date and the values of the profile. *)
Theorem generateLicenseContent_without_placeholders filename metadata w t :
  licenseTemplate metadata = Some t ->
  forallb (fun n => negb (Str.occurs (placeholder n) (plainText t))) tokens =
  true ->
  generateLicenseContent filename metadata w =
  (Ok (trimLines (plainText t)), tick w).
Proof.
  intros Ht Hn. rewrite (generateLicenseContent_run _ _ _ _ Ht).
  cbn [forallb tokens] in Hn.
  repeat (apply andb_true_iff in Hn as [?%negb_true_iff Hn]).
  unfold replaceVariables.
  rewrite (substitute_absent "filename") by assumption.
  rewrite (substitute_absent "downloadDate") by assumption.
  rewrite (substitute_absent "year") by assumption.
  rewrite (substitute_absent "institution") by assumption.
  rewrite (substitute_absent "website") by assumption.
  rewrite (substitute_absent "contact") by assumption.
  now rewrite (substitute_absent "authorsList") by assumption.
Qed.

End PipelineFacts.

(** ** The profile form and the resolution of types *)

Lemma edit_of_the_page metadata e :
  of_the_page metadata -> of_the_page (edit metadata e).
Proof.
  intros (T & S & [own A] & [t L] & [o D] & I & W & C).
  unfold of_the_page, edit, spread.
  destruct e; cbn; rewrite ?T, ?S, ?A, ?L, ?D;
    repeat split; eauto; try discriminate;
    try (destruct (institution metadata); congruence);
    try (destruct (website metadata); congruence);
    try (destruct (contact metadata); congruence).
Qed.

Lemma edited_of_the_page edits : of_the_page (edited edits).
Proof.
  unfold edited.
  assert (I : of_the_page initialMetadata).
  { repeat split; try discriminate; try (eexists; reflexivity).
    now exists YYYY_MM_DD. }
  revert I. generalize initialMetadata.
  induction edits as [|e edits IH]; intros m Hm; [exact Hm |].
  simpl. apply IH. now apply edit_of_the_page.
Qed.

(** X10.  Whatever the user types into the form, the profile keeps its
    shape: it never gets a title or a source, and it always has authors, a
    license template and one of the three date formats of the list. *)
Theorem profile_keeps_its_shape edits :
  let metadata := edited edits in
  title metadata = None /\ source metadata = None /\
  (exists own, authors metadata = Some own) /\
  (exists t, licenseTemplate metadata = Some t) /\
  In (dateFormat metadata)
     [Some "yyyy-m-d"; Some "m-yyyy-d"; Some "d-m-yyyy"].
Proof.
  destruct (edited_of_the_page edits) as (T & S & A & L & [o D] & _).
  cbv zeta. repeat split; try assumption.
  rewrite D. destruct o; simpl; tauto.
Qed.

Section PageFacts.

Context `{Host}.


End PageFacts.

Module ResolveFacts.

Lemma last_app_r {A} (pre l : list A) d :
  l <> [] -> List.last (pre ++ l) d = List.last l d.
Proof.
  intros Hl. induction pre as [|x pre IH]; [reflexivity |].
  simpl. rewrite IH. destruct (pre ++ l) eqn:E; [| reflexivity].
  now destruct pre, l.
Qed.

(** What follows a separator is split on its own. *)
Lemma split_app_sep c a b :
  exists pre,
    pre <> [] /\ Str.split c (a +:+ String c b) = pre ++ Str.split c b.
Proof.
  induction a as [|x a (pre & Hp & IH)].
  - exists [""]. split; [easy |]. simpl. now rewrite Ascii.eqb_refl.
  - simpl. destruct (Ascii.eqb x c).
    + exists ("" :: pre). split; [easy |]. now rewrite IH.
    + rewrite IH. destruct pre as [|p pre]; [easy |].
      now exists (String x p :: pre).
Qed.

Lemma pop_after_sep c a b :
  Str.mem c b = false -> Str.pop (Str.split c (a +:+ String c b)) = b.
Proof.
  intros Hb. destruct (split_app_sep c a b) as (pre & _ & ->).
  unfold Str.pop. rewrite last_app_r by apply TrimFacts.split_not_nil.
  now rewrite SplitFacts.split_free.
Qed.

Lemma lower_char_dot c :
  Ascii.eqb (Str.lower_char c) "." = Ascii.eqb c ".".
Proof.
  destruct c as [[] [] [] [] [] [] [] []]; vm_compute; reflexivity.
Qed.

Lemma split_lower s :
  Str.split "." (Str.toLowerCase s) =
  map Str.toLowerCase (Str.split "." s).
Proof.
  induction s as [|x s IH]; [reflexivity |].
  cbn [Str.toLowerCase Str.split]. rewrite lower_char_dot, IH.
  destruct (Ascii.eqb x "."); [reflexivity |].
  now destruct (Str.split "." s).
Qed.

Lemma pop_map (f : string -> string) l :
  l <> [] -> Str.pop (map f l) = f (Str.pop l).
Proof.
  intros Hl. unfold Str.pop. induction l as [|x l IH]; [easy |].
  destruct l as [|y l]; [reflexivity |].
  change (List.last (map f (x :: y :: l)) "")
    with (List.last (map f (y :: l)) "").
  change (List.last (x :: y :: l) "") with (List.last (y :: l) "").
  now apply IH.
Qed.

(** The key asked for is read off the lower-cased name. *)
Lemma fileExtension_lower name :
  fileExtension name = Str.pop (Str.split "." (Str.toLowerCase name)).
Proof.
  unfold fileExtension.
  rewrite split_lower, pop_map by apply TrimFacts.split_not_nil.
  reflexivity.
Qed.

Lemma embedder_pdf name :
  embedder name = Some attachPDFMetadata_h <-> fileExtension name = "pdf".
Proof.
  unfold embedder, resolve. generalize (fileExtension name). intros ext.
  split.
  - unfold config.supportedTypes. cbn [list_to_map foldr].
    repeat match goal with
    | |- context [<[ ?k := ?v ]> ?m !! ext] =>
        rewrite (lookup_insert m k ext v);
        destruct (decide (k = ext)) as [<-|]
    end; cbn; try discriminate; intros _; reflexivity.
  - intros ->. reflexivity.
Qed.

End ResolveFacts.

(** X18.  The key the table is asked for is the lower-cased text after the
    last dot of the name, and the whole lower-cased name when the name has
    no dot. *)
Theorem fileExtension_is_after_the_last_dot ext :
  Str.mem "." ext = false ->
  fileExtension ext = Str.toLowerCase ext /\
  forall base, fileExtension (base +:+ "." +:+ ext) = Str.toLowerCase ext.
Proof.
  intros He. unfold fileExtension. split.
  - now rewrite SplitFacts.split_free.
  - intros base.
    change (base +:+ "." +:+ ext) with (base +:+ String "." ext).
    now rewrite ResolveFacts.pop_after_sep.
Qed.

(** X19.  The resolution of a type does not look at the case of the name:
    two names that are equal once lower-cased get the same descriptor and
    the same embedder. *)
Theorem resolution_ignores_case name1 name2 :
  Str.toLowerCase name1 = Str.toLowerCase name2 ->
  resolve name1 = resolve name2 /\ embedder name1 = embedder name2.
Proof.
  intros E. unfold embedder, resolve.
  rewrite (ResolveFacts.fileExtension_lower name1),
    (ResolveFacts.fileExtension_lower name2), E.
  now split.
Qed.

Section EmbedFacts.

Context `{Host}.

Lemma attachAudioMetadata_blob file metadata w b w1 :
  attachAudioMetadata file metadata w = (Ok b, w1) ->
  blob_data b = Raw (File.content file).
Proof.
  unfold attachAudioMetadata, try_catch, bind, lift, authors_of.
  destruct (parseBuffer _ _); [| discriminate].
  destruct (authors metadata); [| discriminate].
  intros E. now injection E as <- _.
Qed.

(** X20.  Given a license template, [attachMetadataToDownload] changes the
    bytes of no file but those the table resolves to [pdf]: for every
    other name, whether its embedder is missing, returns or throws, the
    processed file has the bytes of the input. *)
Theorem only_documents_are_rewritten file custom w t :
  licenseTemplate
    (spread config.defaultMetadata
       (match custom with Some c => c | None => emptyMetadata end)) =
  Some t ->
  fileExtension (File.name file) <> "pdf" ->
  exists attached w',
    attachMetadataToDownload file custom w = (Ok attached, w') /\
    payload_data (processedFile attached) = Raw (File.content file).
Proof.
  intros Ht Hx.
  destruct (attach_with_template file custom w t Ht)
    as (attached & w' & E & [P | (h & b & w1 & Hh & R & P)]);
    exists attached, w'; (split; [exact E |]); rewrite P; [reflexivity |].
  destruct h.
  - simpl in R. simpl. now apply attachAudioMetadata_blob in R.
  - now apply ResolveFacts.embedder_pdf in Hh.
Qed.

(** What [attachMetadataToDownload] returns for a document that loads. *)
Lemma attach_document file custom w t doc :
  let given := match custom with Some c => c | None => emptyMetadata end in
  fileExtension (File.name file) = "pdf" ->
  PDFDocument_load (File.content file) = Ok doc ->
  licenseTemplate given = Some t ->
  exists license,
    attachMetadataToDownload file custom w =
    (Ok {| processedFile :=
             OfBlob
               {| blob_data :=
                    Raw (PDFDocument_save
                           (setSubject
                              (or_else (source given) "Your Website Name")
                              (setAuthor
                                 (Str.join ", "
                                    (match authors given with
                                     | Some own => own
                                     | None => []
                                     end))
                                 (setTitle
                                    (or_else (title given) "Default Title")
                                    doc))));
                  blob_type := "application/pdf" |};
           licenseBlob := text_plain license |}, tick w).
Proof.
  intros given Hx Hl Ht.
  apply ResolveFacts.embedder_pdf in Hx.
  set (merged := spread config.defaultMetadata given).
  assert (Hm : licenseTemplate merged = Some t)
    by (unfold merged; now rewrite spread_template).
  assert (Ha : authors_of merged =
               Ok (match authors given with Some own => own | None => [] end))
    by (unfold authors_of, merged, spread; simpl;
        now destruct (authors given)).
  assert (Hi : or_else (title merged) "Default Title" =
               or_else (title given) "Default Title")
    by (unfold merged, spread; simpl; now destruct (title given)).
  assert (Hs : or_else (source merged) (default_of source) =
               or_else (source given) "Your Website Name")
    by (unfold merged, spread; simpl;
        now destruct (source given) as [[|? ?]|]).
  assert (Hj : forall own, join_or own default_authors = Str.join ", " own)
    by (intros own; unfold join_or; simpl;
        now destruct (Str.join ", " own)).
  eexists.
  unfold attachMetadataToDownload, try_catch. fold given. fold merged.
  rewrite Hx.
  unfold run_handler, attachPDFMetadata, bind, lift, ret.
  rewrite Hl, Ha, Hi, Hs, Hj.
  now rewrite (generateLicenseContent_run _ _ _ _ Hm).
Qed.

(** X21.  A file the table resolves to [pdf] and that pdf-lib loads is
    saved again with three properties set: the title of the call or
    [Default Title], the comma-joined authors of the call (none when it has
    none), and as subject the source of the call or [Your Website Name];
    the processed file is that document, of type [application/pdf]. *)
Theorem documents_get_their_properties file custom w t doc :
  let given := match custom with Some c => c | None => emptyMetadata end in
  fileExtension (File.name file) = "pdf" ->
  PDFDocument_load (File.content file) = Ok doc ->
  licenseTemplate given = Some t ->
  exists license,
    attachMetadataToDownload file custom w =
    (Ok {| processedFile :=
             OfBlob
               {| blob_data :=
                    Raw (PDFDocument_save
                           (setSubject
                              (or_else (source given) "Your Website Name")
                              (setAuthor
                                 (Str.join ", "
                                    (match authors given with
                                     | Some own => own
                                     | None => []
                                     end))
                                 (setTitle
                                    (or_else (title given) "Default Title")
                                    doc))));
                  blob_type := "application/pdf" |};
           licenseBlob := text_plain license |}, tick w).
Proof. apply attach_document. Qed.

(** X22.  The form has no field for a title or a source, so a document
    packaged from the page always gets the title [Default Title] and the
    subject [Your Website Name]; its author is the text the authors field
    shows. *)
Theorem page_documents_get_the_default_title edits file w doc own :
  fileExtension (File.name file) = "pdf" ->
  PDFDocument_load (File.content file) = Ok doc ->
  authors (edited edits) = Some own ->
  exists license,
    attachMetadataToDownload file (Some (edited edits)) w =
    (Ok {| processedFile :=
             OfBlob
               {| blob_data :=
                    Raw (PDFDocument_save
                           (setSubject "Your Website Name"
                              (setAuthor (showAuthors own)
                                 (setTitle "Default Title" doc))));
                  blob_type := "application/pdf" |};
           licenseBlob := text_plain license |}, tick w).
Proof.
  intros Hx Hl Ha.
  destruct (edited_of_the_page edits) as (T & S & _ & [t L] & _).
  destruct (attach_document file (Some (edited edits)) w t doc Hx Hl L)
    as [license E].
  exists license. rewrite E. cbv zeta. now rewrite T, S, Ha.
Qed.

End EmbedFacts.

(** ** The theme *)

Section ThemeFacts.

Variable blob_url : nat -> string.

(** X23.  The class of the document body follows the theme of the state:
    as long as the hook has not set the class the theme is [light], and
    once it has, the class is the theme. *)
Theorem body_class_is_the_theme evs :
  match className (after blob_url evs) with
  | Some c => theme (state (after blob_url evs)) = c
  | None => theme (state (after blob_url evs)) = "light"
  end.
Proof.
  apply (after_ind blob_url
           (fun p => match className p with
                     | Some c => theme (state p) = c
                     | None => theme (state p) = "light"
                     end)).
  - reflexivity.
  - intros p [fs | name | | t] Hp; cbn [handle].
    + unfold handleFileUpload.
      pose proof (newFiles_state blob_url fs p) as S.
      assert (C : className (snd (newFiles blob_url fs p)) = className p).
      { clear. revert p. induction fs as [|f fs IH]; intros p;
          [reflexivity |].
        simpl. specialize (IH (snd (createObjectURL blob_url p))).
        destruct (newFiles blob_url fs _) as [entries p2]. simpl in *.
        now rewrite IH. }
      destruct (newFiles blob_url fs p) as [entries p1]. simpl in *.
      now rewrite C, S.
    + exact Hp.
    + unfold clearFiles.
      assert (C : forall l q,
                 className
                   (fold_left
                      (fun q file =>
                         revokeObjectURL (Entry.previewUrl file) q) l q) =
                 className q).
      { clear. induction l as [|x l IH]; intros q; [reflexivity |].
        simpl. now rewrite IH. }
      rewrite C, revoke_all_state. exact Hp.
    + reflexivity.
Qed.

End ThemeFacts.

(** ** The rest of the page on the sample host *)

Module OnSamplePage.

Import Sample SamplePage.

Lemma entries_describe_their_files_witness :
  In track (files (state (after blob_url session))) /\
  Entry.name track = File.name (Entry.file track) /\
  Entry.type track = File.type (Entry.file track) /\
  Entry.size track = List.length (File.content (Entry.file track)).
Proof.
  assert (I : In track (files (state (after blob_url session))))
    by (left; reflexivity).
  exact (conj I (entries_describe_their_files blob_url session track I)).
Defined.

Lemma preview_urls_are_live_witness :
  In track (files (state (after blob_url session))) /\
  Entry.previewUrl track ∈ objectURLs (after blob_url session) /\
  exists n, n < minted (after blob_url session) /\
            Entry.previewUrl track = blob_url n.
Proof.
  assert (I : In track (files (state (after blob_url session))))
    by (left; reflexivity).
  exact (conj I (preview_urls_are_live blob_url session track I)).
Defined.

Lemma removeFile_leaves_the_url_witness :
  In document (files (state (after blob_url uploads))) /\
  ~ In document
      (files (state (removeFile "pdf" (after blob_url uploads)))) /\
  "blob:1" ∈ objectURLs (removeFile "pdf" (after blob_url uploads)).
Proof.
  assert (I : In document (files (state (after blob_url uploads))))
    by (right; left; reflexivity).
  exact (conj I (removeFile_leaves_the_url blob_url uploads document I)).
Defined.

Lemma formatDate_month_year_witness :
  (toLocaleDateString march5 (Some "en-GB") (Some numeric) =
   "05" +:+ "/" +:+ "03" +:+ "/" +:+ "2024" /\
   day_month_year "05" "03" "2024" = true) /\
  formatDate march5 (Some "m-yyyy-d") = "05/2024-03".
Proof.
  split; [split; reflexivity |].
  exact (formatDate_month_year march5 "05" "03" "2024" eq_refl eq_refl).
Defined.

Lemma generateLicenseContent_without_placeholders_witness :
  (licenseTemplate (profile "<p>  All rights reserved. </p>") =
   Some "<p>  All rights reserved. </p>" /\
   forallb
     (fun n =>
        negb (Str.occurs (placeholder n)
                (plainText "<p>  All rights reserved. </p>"))) tokens =
   true) /\
  generateLicenseContent "{year}.mp3"
    (profile "<p>  All rights reserved. </p>") world =
  (Ok ("All rights reserved." +:+ newline), tick world).
Proof.
  split; [split; reflexivity |].
  exact (generateLicenseContent_without_placeholders "{year}.mp3"
           (profile "<p>  All rights reserved. </p>") world
           "<p>  All rights reserved. </p>" eq_refl eq_refl).
Defined.

Lemma fileExtension_is_after_the_last_dot_witness :
  Str.mem "." "PDF" = false /\
  fileExtension "PDF" = "pdf" /\
  fileExtension ("report.v2" +:+ "." +:+ "PDF") = "pdf".
Proof.
  split; [reflexivity |].
  pose (T := fileExtension_is_after_the_last_dot "PDF" eq_refl).
  exact (conj (proj1 T) (proj2 T "report.v2")).
Defined.

Lemma resolution_ignores_case_witness :
  Str.toLowerCase "TRACK.Mp3" = Str.toLowerCase "track.mp3" /\
  resolve "TRACK.Mp3" = resolve "track.mp3" /\
  embedder "TRACK.Mp3" = embedder "track.mp3".
Proof.
  split; [reflexivity |].
  exact (resolution_ignores_case "TRACK.Mp3" "track.mp3" eq_refl).
Defined.

Lemma only_documents_are_rewritten_witness :
  (licenseTemplate
     (spread config.defaultMetadata (profile "File: {filename}")) =
   Some "File: {filename}" /\
   fileExtension (File.name broken_mp3) <> "pdf") /\
  exists attached w',
    attachMetadataToDownload broken_mp3 (Some (profile "File: {filename}"))
      world = (Ok attached, w') /\
    payload_data (processedFile attached) = Raw (File.content broken_mp3).
Proof.
  assert (N : fileExtension (File.name broken_mp3) <> "pdf")
    by (vm_compute; discriminate).
  split; [split; [reflexivity | exact N] |].
  exact (only_documents_are_rewritten broken_mp3
           (Some (profile "File: {filename}")) world "File: {filename}"
           eq_refl N).
Defined.

Lemma documents_get_their_properties_witness :
  (fileExtension (File.name pdf_without_extension) = "pdf" /\
   PDFDocument_load (File.content pdf_without_extension) =
   Ok {| doc_pages := [x01]; doc_title := ""; doc_author := "";
         doc_subject := "" |} /\
   licenseTemplate retitled_with_template = Some "File: {filename}") /\
  exists license,
    attachMetadataToDownload pdf_without_extension
      (Some retitled_with_template) world =
    (Ok {| processedFile :=
             OfBlob
               {| blob_data :=
                    Raw (save_document
                           {| doc_pages := [x01]; doc_title := "New";
                              doc_author := "Ada Lovelace";
                              doc_subject := "Acme Labs" |});
                  blob_type := "application/pdf" |};
           licenseBlob := text_plain license |}, tick world).
Proof.
  split; [repeat split |].
  exact (documents_get_their_properties pdf_without_extension
           (Some retitled_with_template) world "File: {filename}"
           {| doc_pages := [x01]; doc_title := ""; doc_author := "";
              doc_subject := "" |} eq_refl eq_refl eq_refl).
Defined.

Lemma page_documents_get_the_default_title_witness :
  (fileExtension (File.name pdf_without_extension) = "pdf" /\
   PDFDocument_load (File.content pdf_without_extension) =
   Ok {| doc_pages := [x01]; doc_title := ""; doc_author := "";
         doc_subject := "" |} /\
   authors (edited typing) = Some ["Ada Lovelace"; "Alan Turing"]) /\
  exists license,
    attachMetadataToDownload pdf_without_extension (Some (edited typing))
      world =
    (Ok {| processedFile :=
             OfBlob
               {| blob_data :=
                    Raw (save_document
                           {| doc_pages := [x01];
                              doc_title := "Default Title";
                              doc_author := "Ada Lovelace, Alan Turing";
                              doc_subject := "Your Website Name" |});
                  blob_type := "application/pdf" |};
           licenseBlob := text_plain license |}, tick world).
Proof.
  split; [repeat split |].
  exact (page_documents_get_the_default_title typing pdf_without_extension
           world
           {| doc_pages := [x01]; doc_title := ""; doc_author := "";
              doc_subject := "" |}
           ["Ada Lovelace"; "Alan Turing"] eq_refl eq_refl eq_refl).
Defined.

End OnSamplePage.
